(** * RoboSim episode dataset compiler

    A shallow embedding of the two dataset endpoints of [src/api/main.py]:
    [upload_dataset] (directory mode: Parquet shard plus LeRobot metadata
    files, handed to the HuggingFace hub) and [convert_to_parquet] (buffer
    mode: the Parquet bytes returned to the client).

    Frames and episode metadata are untyped JSON objects in the source
    ([frames: list[dict]], [metadata: dict]); they are modelled as such, and
    the Python operations the endpoints apply to them ([dict.get], [in],
    subscripting, [len], [float], [set.add]) are modelled with the exceptions
    they raise.  Python floats are IEEE binary64 numbers, modelled by Rocq's
    primitive floats. *)

From Stdlib Require Import ZArith List String Ascii Strings.Byte Lia.
From Stdlib Require Import PrimFloat FloatOps SpecFloat.
From stdpp Require Import base option list gmap strings pretty.

#[local] Set Warnings "-register-all".

(* ===================================================================== *)
(** ** JSON values, as [json.loads] / pydantic hand them to the endpoints *)
(* ===================================================================== *)

Inductive json :=
| JNull
| JBool (b : bool)
| JInt (z : Z)
| JFloat (f : float)
| JStr (s : string)
| JList (l : list json)
| JDict (m : gmap string json).

(** Failures reported by pyarrow's converters. *)
Inductive ArrowFailure :=
| LengthMismatch (expected got : nat)
| NotASequence
| NotConvertible
| OutOfRange
| InferenceFailed
| UnequalColumns.

(** Python exceptions.  [detail] of an [HTTPException] is either a literal
    message, [str(e)] of a caught exception or an f-string around one. *)
Inductive exn :=
| TypeError
| ValueError
| KeyError
| OverflowError
| ArrowInvalid (why : ArrowFailure)
| ArrowTypeError
| HubError (what : string)
| HTTPException (status_code : Z) (detail : message)
with message :=
| Msg (s : string)
| StrOf (e : exn)
| Fmt (pre : string) (e : exn).

(** A computation either returns or raises. *)
Inductive result (A : Type) :=
| Ok (a : A)
| Err (e : exn).
Arguments Ok {A} a.
Arguments Err {A} e.

#[global] Instance result_ret : MRet result := fun _ a => Ok a.
#[global] Instance result_bind : MBind result :=
  fun _ _ f m => match m with Ok a => f a | Err e => Err e end.

Definition is_ok {A} (r : result A) : bool :=
  match r with Ok _ => true | Err _ => false end.

(** [try: body except Exception as e: handler(e)] *)
Definition try_except {A} (body : result A) (handler : exn -> result A) : result A :=
  match body with Ok a => Ok a | Err e => handler e end.

Definition mapR {A B} (f : A -> result B) : list A -> result (list B) :=
  fix go l :=
    match l with
    | [] => Ok []
    | x :: l' => y ← f x; ys ← go l'; Ok (y :: ys)
    end.

(** A [for] loop that updates a state and may raise. *)
Fixpoint foldM {S A} (f : S -> A -> result S) (s : S) (l : list A) : result S :=
  match l with
  | [] => Ok s
  | x :: l' => s' ← f s x; foldM f s' l'
  end.

(** [enumerate(l)], counting from [i]. *)
Fixpoint enumerate_from {A} (i : nat) (l : list A) : list (nat * A) :=
  match l with
  | [] => []
  | x :: l' => (i, x) :: enumerate_from (S i) l'
  end.

Definition enumerate {A} (l : list A) : list (nat * A) := enumerate_from 0 l.

(* ===================================================================== *)
(** ** The Python operations the endpoints use *)
(* ===================================================================== *)

(** [int] to [float]: round to nearest even, as CPython does. *)
Definition float_of_Z (z : Z) : float :=
  SF2Prim (binary_normalize prec emax z 0 false).

(** [d.get(key, default)] on a dict. *)
Definition dict_get (d : gmap string json) (key : string) (dflt : json) : json :=
  default dflt (d !! key).

Fixpoint str_contains (k s : string) : bool :=
  String.prefix k s ||
  match s with
  | EmptyString => false
  | String _ s' => str_contains k s'
  end.

(** [key in v] for a string key: dict membership, list membership (only an
    equal string is [==] to a string), substring test on a string; the other
    JSON values are not iterable. *)
Definition py_contains (key : string) (v : json) : result bool :=
  match v with
  | JDict m => Ok (bool_decide (is_Some (m !! key)))
  | JList l =>
      Ok (existsb (fun x => match x with JStr s => String.eqb s key | _ => false end) l)
  | JStr s => Ok (str_contains key s)
  | JNull | JBool _ | JInt _ | JFloat _ => Err TypeError
  end.

(** [v[key]] for a string key. *)
Definition py_getitem (v : json) (key : string) : result json :=
  match v with
  | JDict m => match m !! key with Some x => Ok x | None => Err KeyError end
  | _ => Err TypeError
  end.

Definition string_length (s : string) : nat := String.length s.

(** [len(v)] *)
Definition py_len (v : json) : result nat :=
  match v with
  | JList l => Ok (length l)
  | JStr s => Ok (string_length s)
  | JDict m => Ok (size m)
  | JNull | JBool _ | JInt _ | JFloat _ => Err TypeError
  end.

Definition isinstance_list (v : json) : bool :=
  match v with JList _ => true | _ => false end.

(** Is the float equal to the integer, compared exactly as Python does. *)
Definition float_eq_Z (f : float) (z : Z) : bool :=
  match Prim2SF f with
  | S754_zero _ => Z.eqb z 0
  | S754_finite s m e =>
      let sm := cond_Zopp s (Zpos m) in
      if Z.leb 0 e then Z.eqb z (sm * 2 ^ e) else Z.eqb (z * 2 ^ (- e)) sm
  | _ => false
  end.

(** [a == b] on hashable JSON scalars: [True == 1 == 1.0].  Containers are
    unhashable and never reach a comparison. *)
Definition py_eqb (a b : json) : bool :=
  let num v :=
    match v with
    | JBool b => Some (inl (if b then 1%Z else 0%Z))
    | JInt z => Some (inl z)
    | JFloat f => Some (inr f)
    | _ => None
    end in
  match a, b with
  | JNull, JNull => true
  | JStr s, JStr t => String.eqb s t
  | _, _ =>
      match num a, num b with
      | Some (inl x), Some (inl y) => Z.eqb x y
      | Some (inr f), Some (inr g) => PrimFloat.eqb f g
      | Some (inl x), Some (inr g) => float_eq_Z g x
      | Some (inr f), Some (inl y) => float_eq_Z f y
      | _, _ => false
      end
  end.

Definition py_hashable (v : json) : bool :=
  match v with JList _ | JDict _ => false | _ => true end.

(** A Python [set] of JSON scalars: its distinct elements, in the order they
    were first added. *)
Definition set_add (x : json) (s : list json) : result (list json) :=
  if py_hashable x
  then Ok (if existsb (py_eqb x) s then s else s ++ [x])
  else Err TypeError.

(** [bytes.hex()] *)
Definition hex_digit (n : N) : ascii :=
  nth (N.to_nat n) (list_ascii_of_string "0123456789abcdef") "0"%char.

Definition hex (bs : list byte) : string :=
  fold_right
    (fun b acc =>
       String (hex_digit (Byte.to_N b / 16)) (String (hex_digit (Byte.to_N b mod 16)) acc))
    EmptyString bs.

(* ===================================================================== *)
(** ** pyarrow: types, typed conversion, tables *)
(* ===================================================================== *)

Inductive DataType :=
| int64
| float64
| float32
| fixed_size_list (item : DataType) (list_size : nat).

(** [pa.list_(value_type, list_size)] with a non-negative size. *)
Definition list_ (value_type : DataType) (list_size : nat) : DataType :=
  fixed_size_list value_type list_size.

Inductive ArrowValue :=
| ANull
| AInt (z : Z)
| ADouble (f : float)
| AFloat (f : float)
| AList (items : list ArrowValue).

(** Narrowing of a binary64 number to the nearest binary32 number. *)
Definition to_float32 (f : float) : float :=
  match Prim2SF f with
  | S754_finite s m e => SF2Prim (binary_round 24 128 s m e)
  | _ => f
  end.

(** Conversion of one Python value to a column of type [ty] by [pa.array].
    [None] is a null of any type.  The compiler hands int64 columns Python
    ints only.  A fixed-size list takes a sequence of exactly [list_size]
    items (the size is checked before the items are converted); a string is a
    sequence of one-character strings, none of which is a number. *)
Fixpoint pa_convert (ty : DataType) (v : json) : result ArrowValue :=
  match v with
  | JNull => Ok ANull
  | _ =>
    match ty with
    | int64 =>
        match v with
        | JInt z =>
            if (Z.leb (- 2 ^ 63) z && Z.ltb z (2 ^ 63))%bool
            then Ok (AInt z) else Err OverflowError
        | JBool _ => Err ArrowTypeError
        | _ => Err (ArrowInvalid NotConvertible)
        end
    | float64 =>
        match v with
        | JFloat f => Ok (ADouble f)
        | JInt z =>
            if Z.leb (Z.abs z) (2 ^ 53)
            then Ok (ADouble (float_of_Z z)) else Err (ArrowInvalid OutOfRange)
        | JBool _ => Err ArrowTypeError
        | _ => Err (ArrowInvalid NotConvertible)
        end
    | float32 =>
        match v with
        | JFloat f => Ok (AFloat (to_float32 f))
        | JInt z =>
            if Z.leb (Z.abs z) (2 ^ 24)
            then Ok (AFloat (float_of_Z z)) else Err (ArrowInvalid OutOfRange)
        | JBool _ => Err ArrowTypeError
        | _ => Err (ArrowInvalid NotConvertible)
        end
    | fixed_size_list item n =>
        match v with
        | JList l =>
            if Nat.eqb (length l) n
            then items ← mapR (pa_convert item) l; Ok (AList items)
            else Err (ArrowInvalid (LengthMismatch n (length l)))
        | JStr s =>
            if Nat.eqb (string_length s) n
            then (if Nat.eqb n 0 then Ok (AList []) else Err (ArrowInvalid NotConvertible))
            else Err (ArrowInvalid (LengthMismatch n (string_length s)))
        | _ => Err (ArrowInvalid NotASequence)
        end
    end
  end.

(** An Arrow array: built with a declared type ([pa.array(values, type=ty)])
    or with the type pyarrow infers from the Python values. *)
Inductive Array :=
| TypedArray (ty : DataType) (vals : list ArrowValue)
| InferredArray (vals : list json).

Definition array_len (a : Array) : nat :=
  match a with
  | TypedArray _ vals => length vals
  | InferredArray vals => length vals
  end.

Definition pa_array (values : list json) (ty : DataType) : result Array :=
  vals ← mapR (pa_convert ty) values; Ok (TypedArray ty vals).

Record Table := { table_columns : list (string * Array) }.

Definition column_names (t : Table) : list string := map fst (table_columns t).

Definition num_rows (t : Table) : nat :=
  match table_columns t with
  | [] => 0
  | (_, a) :: _ => array_len a
  end.

(** [pa.table(dict)] over arrays: the columns must be equally long. *)
Definition pa_table (cols : list (string * Array)) : result Table :=
  match cols with
  | [] => Ok {| table_columns := [] |}
  | (_, a) :: rest =>
      if forallb (fun c => Nat.eqb (array_len (snd c)) (array_len a)) rest
      then Ok {| table_columns := cols |}
      else Err (ArrowInvalid UnequalColumns)
  end.

(** What the source takes from its runtime and libraries without defining
    it: parsing a string by [float], the iteration order of a [set] (some
    enumeration of its elements), whether pyarrow can infer one Arrow type for
    a Python list, and the Parquet writer. *)
Class Runtime := {
  float_of_str : string -> option float;
  set_iter : list json -> list json;
  set_iter_perm : forall s, set_iter s ≡ₚ s;
  pa_infer : list json -> bool;
  pq_write_table : Table -> result (list byte);
}.

(* ===================================================================== *)
(** ** Request and bundle data (the pydantic models and the written files) *)
(* ===================================================================== *)

Record Episode := {
  episodeIndex : Z;
  frames : list (gmap string json);
  metadata : gmap string json;
}.

Record DatasetMetadata := {
  robotType : string;
  totalFrames : Z;
  totalEpisodes : Z;
  fps : Z;
  features : gmap string json;
}.

Record UploadRequest := {
  episodes : list Episode;
  request_metadata : DatasetMetadata;
  hfToken : string;
  repoName : string;
  isPrivate : bool;
  description : option string;
}.

Record UploadResponse := {
  success : bool;
  repoUrl : string;
  message_text : string;
}.

(** A line of [meta/episodes.jsonl]. *)
Record EpisodeMeta := {
  em_episode_index : Z;
  em_tasks : list json;
  em_length : nat;
}.

(** A line of [meta/tasks.jsonl]. *)
Record TaskEntry := {
  te_task_index : nat;
  te_task : json;
}.

Record Feature := {
  dtype : string;
  shape : list nat;
  names : list string;
}.

(** [meta/info.json] *)
Record DatasetInfo := {
  codebase_version : string;
  robot_type : string;
  info_fps : Z;
  total_episodes : nat;
  total_frames : nat;
  feature_observation_state : Feature;
  feature_action : Feature;
  splits_train : string;
}.

(** The values interpolated into the [README.md] template. *)
Record Readme := {
  readme_repo_name : string;
  readme_robot_type : string;
  readme_total_episodes : nat;
  readme_total_frames : nat;
  readme_fps : Z;
  readme_repo_id : string;
}.

(** The temporary directory handed to [upload_folder]:
    [data/train-00000-of-00001.parquet] (absent when there is no row),
    [meta/info.json], [meta/episodes.jsonl], [meta/tasks.jsonl], [README.md]. *)
Record Bundle := {
  data_parquet : option (list byte);
  info_json : DatasetInfo;
  episodes_jsonl : list EpisodeMeta;
  tasks_jsonl : list TaskEntry;
  readme_md : Readme;
}.

(** The state of the episode loop of [upload_dataset]. *)
Record LoopState := {
  all_rows : list (gmap string json);
  episode_metadata : list EpisodeMeta;
  tasks : list json;
}.

(** The response of [convert_to_parquet]. *)
Record ConvertResponse := {
  conv_success : bool;
  parquet_base64 : string;
  conv_num_rows : nat;
}.

(** The hub collaborator: [whoami] stands for [hf_api.whoami()["name"]]. *)
Record HfApi := {
  whoami : string -> result string;
  create_repo : string -> bool -> result unit;
  upload_folder : Bundle -> string -> result unit;
}.

Inductive HubCall :=
| CreateRepo (repo_id : string) (private : bool)
| UploadFolder (repo_id : string) (folder : Bundle).

(* ===================================================================== *)
(** ** Directory mode: [upload_dataset] *)
(* ===================================================================== *)

Definition joint_names : list string :=
  ["joint_1"; "joint_2"; "joint_3"; "joint_4"; "joint_5"; "gripper"].

(** [frame_idx / 30.0]; a list position is far below the integers whose
    conversion to [float] overflows. *)
Definition default_timestamp (frame_idx : nat) : json :=
  JFloat (float_of_Z (Z.of_nat frame_idx) / 30)%float.

(** Lines 162-183: the row of one frame. *)
Definition project_row_upload (ep_idx : Z) (frame_idx : nat)
    (frame : gmap string json) : result (gmap string json) :=
  let obs := dict_get frame "observation" (JDict ∅) in
  let action := dict_get frame "action" (JDict ∅) in
  let row : gmap string json :=
    <["task_index" := JInt 0]>
      (<["timestamp" := dict_get frame "timestamp" (default_timestamp frame_idx)]>
         (<["frame_index" := JInt (Z.of_nat frame_idx)]>
            (<["episode_index" := JInt ep_idx]> ∅))) in
  has_state ← py_contains "jointPositions" obs;
  row ← (if has_state : bool
         then v ← py_getitem obs "jointPositions"; Ok (<["observation.state" := v]> row)
         else Ok row);
  has_image ← py_contains "image" obs;
  row ← (if has_image : bool
         then v ← py_getitem obs "image"; Ok (<["observation.image" := v]> row)
         else Ok row);
  has_joint ← py_contains "jointPositions" action;
  if has_joint : bool
  then v ← py_getitem action "jointPositions"; Ok (<["action" := v]> row)
  else
    has_target ← py_contains "targetPositions" action;
    if has_target : bool
    then v ← py_getitem action "targetPositions"; Ok (<["action" := v]> row)
    else Ok row.

(** Line 152: the task text of an episode. *)
Definition episode_task (episode : Episode) : json :=
  dict_get (metadata episode) "languageInstruction" (JStr "manipulation task").

(** Lines 150-185: one iteration of the episode loop. *)
Definition upload_episode (st : LoopState) (episode : Episode) : result LoopState :=
  let ep_idx := episodeIndex episode in
  let task := episode_task episode in
  tasks' ← set_add task (tasks st);
  let episode_metadata' :=
    episode_metadata st ++
      [ {| em_episode_index := ep_idx; em_tasks := [task];
           em_length := length (frames episode) |} ] in
  rows' ← foldM
            (fun rows '(frame_idx, frame) =>
               row ← project_row_upload ep_idx frame_idx frame; Ok (rows ++ [row]))
            (all_rows st) (enumerate (frames episode));
  Ok {| all_rows := rows'; episode_metadata := episode_metadata'; tasks := tasks' |}.

Definition upload_loop (eps : list Episode) : result LoopState :=
  foldM upload_episode {| all_rows := []; episode_metadata := []; tasks := [] |} eps.

Definition base_schema : list (string * DataType) :=
  [("episode_index", int64); ("frame_index", int64);
   ("timestamp", float64); ("task_index", int64)].

(** Lines 190-204: the schema, from the first row. *)
Definition infer_schema (sample_row : gmap string json) : result (list (string * DataType)) :=
  schema_fields ←
    match sample_row !! "observation.state" with
    | Some v => state_dim ← py_len v;
                Ok (base_schema ++ [("observation.state", list_ float32 state_dim)])
    | None => Ok base_schema
    end;
  match sample_row !! "action" with
  | Some v => action_dim ← py_len v;
              Ok (schema_fields ++ [("action", list_ float32 action_dim)])
  | None => Ok schema_fields
  end.

Section WithRuntime.
Context `{RT : Runtime}.

(** [float(v)] *)
Definition py_float (v : json) : result float :=
  match v with
  | JFloat f => Ok f
  | JInt z =>
      match binary_normalize prec emax z 0 false with
      | S754_infinity _ => Err OverflowError
      | sf => Ok (SF2Prim sf)
      end
  | JBool b => Ok (if b then 1 else 0)%float
  | JStr s => match float_of_str s with Some f => Ok f | None => Err ValueError end
  | JNull | JList _ | JDict _ => Err TypeError
  end.

(** Lines 210-218: the value appended to a column for one row. *)
Definition column_value (row : gmap string json) (field_name : string) : result json :=
  match row !! field_name with
  | Some (JList val) => fs ← mapR py_float val; Ok (JList (map JFloat fs))
  | Some val => Ok val
  | None => Ok JNull
  end.

(** Lines 207-218: the columnar form of the rows. *)
Definition fill_columns (schema_fields : list (string * DataType))
    (rows : list (gmap string json)) : result (gmap string (list json)) :=
  foldM
    (fun columns row =>
       foldM
         (fun (columns : gmap string (list json)) '(field_name, _) =>
            x ← column_value row field_name;
            Ok (alter (fun col => col ++ [x]) field_name columns))
         columns schema_fields)
    (list_to_map (map (fun field => (fst field, [])) schema_fields) : gmap string (list json))
    rows.

(** Lines 221-233: one Arrow array per non-empty column, then the table. *)
Definition make_table (schema_fields : list (string * DataType))
    (columns : gmap string (list json)) : result Table :=
  named_arrays ←
    foldM
      (fun acc '(field_name, field_type) =>
         match columns !! field_name with
         | Some (x :: col) =>
             arr ← pa_array (x :: col) field_type; Ok (acc ++ [(field_name, arr)])
         | _ => Ok acc
         end)
      [] schema_fields;
  pa_table named_arrays.

(** Lines 188-233: the table of a non-empty list of rows. *)
Definition encode_table (rows : list (gmap string json)) : result (option Table) :=
  match rows with
  | [] => Ok None
  | sample_row :: _ =>
      schema_fields ← infer_schema sample_row;
      columns ← fill_columns schema_fields rows;
      table ← make_table schema_fields columns;
      Ok (Some table)
  end.

Definition sum_frames (eps : list Episode) : nat :=
  foldr (fun ep n => length (frames ep) + n) 0 eps.

(** The shape of a feature in [info.json] (lines 249 and 254). *)
Definition feature_shape (rows : list (gmap string json)) (field_name : string)
  : result (list nat) :=
  match rows with
  | row0 :: _ => n ← py_len (dict_get row0 field_name (JList [])); Ok [n]
  | [] => Ok [6]
  end.

(** Lines 240-259 *)
Definition make_info (request : UploadRequest) (rows : list (gmap string json))
  : result DatasetInfo :=
  state_shape ← feature_shape rows "observation.state";
  action_shape ← feature_shape rows "action";
  Ok {| codebase_version := "v3.0";
        robot_type := robotType (request_metadata request);
        info_fps := fps (request_metadata request);
        total_episodes := length (episodes request);
        total_frames := sum_frames (episodes request);
        feature_observation_state :=
          {| dtype := "float32"; shape := state_shape; names := joint_names |};
        feature_action :=
          {| dtype := "float32"; shape := action_shape; names := joint_names |};
        splits_train := "0:" +:+ pretty (length (episodes request)) |}.

(** Lines 270-272: [enumerate(tasks)] over the set. *)
Definition make_tasks (tasks : list json) : list TaskEntry :=
  map (fun '(i, task) => {| te_task_index := i; te_task := task |})
      (enumerate (set_iter tasks)).

(** The table [upload_dataset] builds for a request, before it is written. *)
Definition upload_table (request : UploadRequest) : result (option Table) :=
  st ← upload_loop (episodes request); encode_table (all_rows st).

(** Lines 138-313: the body of the [with] block up to the upload, that is
    the content of the temporary directory. *)
Definition build_dataset (request : UploadRequest) (repo_id : string) : result Bundle :=
  st ← upload_loop (episodes request);
  table ← encode_table (all_rows st);
  parquet ← match table with
            | Some t => bytes ← pq_write_table t; Ok (Some bytes)
            | None => Ok None
            end;
  info ← make_info request (all_rows st);
  Ok {| data_parquet := parquet;
        info_json := info;
        episodes_jsonl := episode_metadata st;
        tasks_jsonl := make_tasks (tasks st);
        readme_md :=
          {| readme_repo_name := repoName request;
             readme_robot_type := robotType (request_metadata request);
             readme_total_episodes := length (episodes request);
             readme_total_frames := sum_frames (episodes request);
             readme_fps := fps (request_metadata request);
             readme_repo_id := repo_id |} |}.

(** The outer handlers of [upload_dataset] (lines 331-334). *)
Definition upload_handlers (e : exn) : exn :=
  match e with
  | HTTPException _ _ => e
  | _ => HTTPException 500 (StrOf e)
  end.

(** Lines 112-334.  The result comes with the calls made to the hub. *)
Definition upload_dataset (hub : HfApi) (request : UploadRequest)
  : list HubCall * result UploadResponse :=
  match whoami hub (hfToken request) with
  | Err e => ([], Err (HTTPException 401 (Fmt "Invalid HuggingFace token: " e)))
  | Ok username =>
      let repo_id := username +:+ "/" +:+ repoName request in
      let created := CreateRepo repo_id (isPrivate request) in
      match create_repo hub repo_id (isPrivate request) with
      | Err e => ([created], Err (HTTPException 500 (Fmt "Failed to create repo: " e)))
      | Ok _ =>
          match build_dataset request repo_id with
          | Err e => ([created], Err (upload_handlers e))
          | Ok bundle =>
              let uploaded := UploadFolder repo_id bundle in
              match upload_folder hub bundle repo_id with
              | Err e => ([created; uploaded], Err (upload_handlers e))
              | Ok _ =>
                  ([created; uploaded],
                   Ok {| success := true;
                         repoUrl := "https://huggingface.co/datasets/" +:+ repo_id;
                         message_text :=
                           "Successfully uploaded " +:+ pretty (length (episodes request))
                             +:+ " episodes to " +:+ repo_id |})
              end
          end
      end
  end.

(* ===================================================================== *)
(** ** Buffer mode: [convert_to_parquet] *)
(* ===================================================================== *)

(** Lines 350-362: the row of one frame. *)
Definition project_row_convert (ep_idx : Z) (frame_idx : nat)
    (frame : gmap string json) : result (gmap string json) :=
  let obs := dict_get frame "observation" (JDict ∅) in
  let action := dict_get frame "action" (JDict ∅) in
  let row : gmap string json :=
    <["timestamp" := dict_get frame "timestamp" (default_timestamp frame_idx)]>
      (<["frame_index" := JInt (Z.of_nat frame_idx)]>
         (<["episode_index" := JInt ep_idx]> ∅)) in
  has_state ← py_contains "jointPositions" obs;
  row ← (if has_state : bool
         then v ← py_getitem obs "jointPositions"; Ok (<["observation.state" := v]> row)
         else Ok row);
  has_joint ← py_contains "jointPositions" action;
  if has_joint : bool
  then v ← py_getitem action "jointPositions"; Ok (<["action" := v]> row)
  else Ok row.

(** Lines 346-364 *)
Definition convert_loop (eps : list Episode) : result (list (gmap string json)) :=
  foldM
    (fun rows episode =>
       foldM
         (fun rows '(frame_idx, frame) =>
            row ← project_row_convert (episodeIndex episode) frame_idx frame;
            Ok (rows ++ [row]))
         rows (enumerate (frames episode)))
    [] eps.

(** [r[key]] on a row. *)
Definition row_getitem (key : string) (r : gmap string json) : result json :=
  match r !! key with Some v => Ok v | None => Err KeyError end.

(** Lines 370-379: the columns dict, in insertion order ([rows] is not empty
    there, so [all_rows[0]] exists). *)
Definition convert_columns (rows : list (gmap string json))
  : result (list (string * list json)) :=
  c1 ← mapR (row_getitem "episode_index") rows;
  c2 ← mapR (row_getitem "frame_index") rows;
  c3 ← mapR (row_getitem "timestamp") rows;
  let columns := [("episode_index", c1); ("frame_index", c2); ("timestamp", c3)] in
  let has key := match rows with r0 :: _ => bool_decide (is_Some (r0 !! key)) | [] => false end in
  let columns :=
    if has "observation.state"
    then columns ++ [("observation.state",
                      map (fun r => dict_get r "observation.state" (JList [])) rows)]
    else columns in
  let columns :=
    if has "action"
    then columns ++ [("action", map (fun r => dict_get r "action" (JList [])) rows)]
    else columns in
  Ok columns.

(** [pa.table(columns)] over Python lists: each is converted with the type
    pyarrow infers for it. *)
Definition pa_table_pydict (columns : list (string * list json)) : result Table :=
  arrays ← mapR
             (fun '(name, values) =>
                if pa_infer values then Ok (name, InferredArray values)
                else Err (ArrowInvalid InferenceFailed))
             columns;
  pa_table arrays.

(** The table [convert_to_parquet] builds from its rows (lines 370-381). *)
Definition convert_table (rows : list (gmap string json)) : result Table :=
  columns ← convert_columns rows; pa_table_pydict columns.

(** Lines 343-395.  The only handler turns every exception, the 400 of line
    367 included, into a 500. *)
Definition convert_to_parquet (eps : list Episode) : result ConvertResponse :=
  try_except
    (rows ← convert_loop eps;
     match rows with
     | [] => Err (HTTPException 400 (Msg "No frames to convert"))
     | _ :: _ =>
         table ← convert_table rows;
         bytes ← pq_write_table table;
         Ok {| conv_success := true;
               parquet_base64 := hex bytes;
               conv_num_rows := length rows |}
     end)
    (fun e => Err (HTTPException 500 (StrOf e))).

End WithRuntime.

(* ===================================================================== *)
(** ** [get_all_examples]: the shared examples, as the database returns them *)
(* ===================================================================== *)

(** An element of the list [get_all_examples] returns. *)
Record SharedExampleOut := {
  ex_id : json;
  ex_objectPosition : json;
  ex_objectType : json;
  ex_objectScale : json;
  ex_jointSequence : json;
  ex_similarity : float;
}.

(** Lines 603-610: the example made from one row of [shared_examples]. *)
Definition example_of_row (row : json) : result SharedExampleOut :=
  id ← py_getitem row "id";
  position ← py_getitem row "object_position";
  type ← py_getitem row "object_type";
  scale ← py_getitem row "object_scale";
  sequence ← py_getitem row "joint_sequence";
  Ok {| ex_id := id; ex_objectPosition := position; ex_objectType := type;
        ex_objectScale := scale; ex_jointSequence := sequence;
        ex_similarity := 1 |}.

(** Lines 586-615.  [supabase] is [None] when Supabase is not configured;
    otherwise it is the query [select("*").limit(limit).execute()], which
    returns [result.data] or raises. *)
Definition get_all_examples (supabase : option (Z -> result (list json))) (limit : Z)
  : result (list SharedExampleOut) :=
  match supabase with
  | None => Ok []
  | Some query =>
      try_except
        (data ← query limit;
         foldM (fun examples row =>
                  example ← example_of_row row; Ok (examples ++ [example]))
               [] data)
        (fun e => Err (HTTPException 500 (Fmt "Failed to get examples: " e)))
  end.

(* ===================================================================== *)
(** ** [stripe_webhook]: subscription events *)
(* ===================================================================== *)

(** [bool(v)] *)
Definition py_truthy (v : json) : bool :=
  match v with
  | JNull => false
  | JBool b => b
  | JInt z => negb (z =? 0)%Z
  | JFloat f => negb (PrimFloat.eqb f 0)
  | JStr s => negb (String.eqb s "")
  | JList l => negb (Nat.eqb (length l) 0)
  | JDict m => negb (Nat.eqb (size m) 0)
  end.

(** [v.get(key, dflt)]: only a dict has the method; [None] stands for the
    [AttributeError] the other values raise. *)
Definition py_get (v : json) (key : string) (dflt : json) : option json :=
  match v with
  | JDict m => Some (dict_get m key dflt)
  | _ => None
  end.

(** What [stripe.Webhook.construct_event] does with a payload, the
    [Stripe-Signature] header and the secret: it returns the event, raises a
    [ValueError], raises a [SignatureVerificationError], or raises something
    else. *)
Inductive construct_outcome :=
| Verified (event : json)
| InvalidPayload (e : exn)
| InvalidSignature (e : exn)
| ConstructRaised (e : exn).

(** The services the handler talks to.  [update_profile fields email] is
    [table("user_profiles").update(fields).eq("email", email).execute()]. *)
Record Billing := {
  STRIPE_WEBHOOK_SECRET : option string;
  construct_event : string -> option string -> string -> construct_outcome;
  retrieve_customer : json -> result json;
  supabase_configured : bool;
  update_profile : list (string * json) -> json -> result unit;
}.

(** The requests the handler sends out, in order. *)
Inductive WebhookCall :=
| RetrieveCustomer (customer_id : json)
| UpdateProfile (fields : list (string * json)) (email : json).

(** How the handler ends: with [{"received": True}] or with an exception. *)
Inductive WebhookAnswer :=
| Received
| Raised (e : exn)
| RaisedAttributeError.

Definition pro_fields : list (string * json) :=
  [("tier", JStr "pro"); ("tier_expires_at", JNull)].

Definition free_fields : list (string * json) :=
  [("tier", JStr "free")].

(** Lines 695-708 and 720-729: the update, whose failure is only printed. *)
Definition update_tier (b : Billing) (fields : list (string * json)) (email : json)
  : list WebhookCall :=
  if supabase_configured b then
    match update_profile b fields email with
    | Ok _ => [UpdateProfile fields email]
    | Err _ => [UpdateProfile fields email]
    end
  else [].

(** [event["data"]["object"]] *)
Definition event_object (event : json) : result json :=
  data ← py_getitem event "data"; py_getitem data "object".

(** Line 691 *)
Definition session_email (session : json) : option json :=
  match py_get session "customer_email" JNull with
  | None => None
  | Some email =>
      if py_truthy email then Some email
      else match py_get session "customer_details" (JDict ∅) with
           | None => None
           | Some details => py_get details "email" JNull
           end
  end.

(** Lines 689-708 *)
Definition checkout_completed (b : Billing) (event : json)
  : list WebhookCall * WebhookAnswer :=
  match event_object event with
  | Err e => ([], Raised e)
  | Ok session =>
      match session_email session with
      | None => ([], RaisedAttributeError)
      | Some customer_email =>
          if py_truthy customer_email
          then (update_tier b pro_fields customer_email, Received)
          else ([], Received)
      end
  end.

(** Lines 717-731: everything after [stripe.Customer.retrieve] is inside the
    [try], so a failure there ends the handling quietly. *)
Definition downgrade_customer (b : Billing) (customer_id : json) : list WebhookCall :=
  RetrieveCustomer customer_id ::
  match retrieve_customer b customer_id with
  | Err _ => []
  | Ok customer =>
      match py_get customer "email" JNull with
      | None => []
      | Some customer_email =>
          if py_truthy customer_email
          then update_tier b free_fields customer_email
          else []
      end
  end.

(** Lines 710-731 *)
Definition subscription_deleted (b : Billing) (event : json)
  : list WebhookCall * WebhookAnswer :=
  match event_object event with
  | Err e => ([], Raised e)
  | Ok subscription =>
      match py_get subscription "customer" JNull with
      | None => ([], RaisedAttributeError)
      | Some customer_id =>
          if py_truthy customer_id
          then (downgrade_customer b customer_id, Received)
          else ([], Received)
      end
  end.

(** Lines 688-733 *)
Definition handle_event (b : Billing) (event : json) : list WebhookCall * WebhookAnswer :=
  match py_getitem event "type" with
  | Err e => ([], Raised e)
  | Ok type =>
      if py_eqb type (JStr "checkout.session.completed") then checkout_completed b event
      else if py_eqb type (JStr "customer.subscription.deleted") then subscription_deleted b event
      else ([], Received)
  end.

Definition secret_set (b : Billing) : option string :=
  match STRIPE_WEBHOOK_SECRET b with
  | Some s => if String.eqb s "" then None else Some s
  | None => None
  end.

(** Lines 665-734 *)
Definition stripe_webhook (b : Billing) (payload : string) (stripe_signature : option string)
  : list WebhookCall * WebhookAnswer :=
  match secret_set b with
  | None => ([], Raised (HTTPException 500 (Msg "Stripe webhook secret not configured")))
  | Some secret =>
      match construct_event b payload stripe_signature secret with
      | InvalidPayload e => ([], Raised (HTTPException 400 (Fmt "Invalid payload: " e)))
      | InvalidSignature e => ([], Raised (HTTPException 400 (Fmt "Invalid signature: " e)))
      | ConstructRaised e => ([], Raised e)
      | Verified event => handle_event b event
      end
  end.

(* ===================================================================== *)
(** ** [get_example_stats]: counts by object type *)
(* ===================================================================== *)

Record ExampleStats := {
  totalExamples : nat;
  byObjectType : list (json * Z);
  coverageHeatmap : option (list json);
  lastUpdated : string;
}.

(** [by_type[key] = by_type.get(key, 0) + 1] on a dict that keeps its keys
    in insertion order. *)
Fixpoint bump (key : json) (counts : list (json * Z)) : list (json * Z) :=
  match counts with
  | [] => [(key, 1%Z)]
  | (k, n) :: rest =>
      if py_eqb k key then (k, (n + 1)%Z) :: rest else (k, n) :: bump key rest
  end.

(** Lines 545-548: one step of the counting loop. *)
Definition count_row (by_type : list (json * Z)) (row : json) : result (list (json * Z)) :=
  obj_type ← py_getitem row "object_type";
  if py_hashable obj_type then Ok (bump obj_type by_type) else Err TypeError.

Section Stats.
(** Lines 550-566, the grid of the coverage heat map, and the clock. *)
Variable heatmap_of : list json -> result (list json).
Variable now : string.

(** Lines 535-580.  [supabase] is [None] when Supabase is not configured,
    otherwise the outcome of the query. *)
Definition get_example_stats (supabase : option (result (list json)))
  : result ExampleStats :=
  match supabase with
  | None =>
      Ok {| totalExamples := 0; byObjectType := [];
            coverageHeatmap := None; lastUpdated := now |}
  | Some query =>
      try_except
        (data ← query;
         by_type ← foldM count_row [] data;
         heatmap ← heatmap_of data;
         Ok {| totalExamples := length data; byObjectType := by_type;
               coverageHeatmap := Some heatmap; lastUpdated := now |})
        (fun e => Err (HTTPException 500 (Fmt "Failed to get stats: " e)))
  end.
End Stats.

(* ===================================================================== *)
(** ** Specification-level helpers and test data *)
(* ===================================================================== *)

(** The table [convert_to_parquet] builds for a batch. *)
Definition convert_episodes_table `{RT : Runtime} (eps : list Episode) : result Table :=
  rows ← convert_loop eps; convert_table rows.

(** A runtime for the examples: no string parses as a number, a set iterates
    from its newest element, pyarrow infers a type for every list and the
    writer emits the Parquet magic number only. *)
Definition test_runtime : Runtime := {|
  float_of_str := fun _ => None;
  set_iter := reverse;
  set_iter_perm := fun s => reverse_Permutation s;
  pa_infer := fun _ => true;
  pq_write_table := fun _ => Ok ["P"; "A"; "R"; "1"]%byte;
|}.

Definition zeros6 : json := JList (replicate 6 (JInt 0)).

Definition frame_of (state action : json) : gmap string json :=
  <["action" := JDict (<["jointPositions" := action]> ∅)]>
    (<["observation" := JDict (<["jointPositions" := state]> ∅)]> ∅).

(** The scenario of the specification: one episode of three frames without
    timestamps, six joints, one language instruction. *)
Definition cube_episode : Episode :=
  {| episodeIndex := 0;
     frames := replicate 3 (frame_of zeros6
                 (JList (JFloat 0x1.999999999999ap-4 :: replicate 5 (JInt 0))));
     metadata := <["languageInstruction" := JStr "pick up the cube"]> ∅ |}.

Definition so100 : DatasetMetadata :=
  {| robotType := "so-100"; totalFrames := 3; totalEpisodes := 1; fps := 50;
     features := ∅ |}.

Definition request_of (eps : list Episode) : UploadRequest :=
  {| episodes := eps; request_metadata := so100; hfToken := "hf_token";
     repoName := "cubes"; isPrivate := true; description := None |}.

(** A second episode with no language instruction and a frame that carries
    its own timestamp and only target positions. *)
Definition target_frame : gmap string json :=
  <["timestamp" := JFloat 2.5]>
    (<["action" := JDict (<["targetPositions" := zeros6]> ∅)]>
       (<["observation" := JDict (<["jointPositions" := zeros6]> ∅)]> ∅)).

Definition target_episode : Episode :=
  {| episodeIndex := 1; frames := [target_frame]; metadata := ∅ |}.

(** An episode whose second frame has a five-element action. *)
Definition ragged_episode : Episode :=
  {| episodeIndex := 0;
     frames := [frame_of zeros6 zeros6;
                frame_of zeros6 (JList (replicate 5 (JInt 0)))];
     metadata := ∅ |}.

Definition test_hub : HfApi :=
  {| whoami := fun _ => Ok "alice";
     create_repo := fun _ _ => Ok ();
     upload_folder := fun _ _ => Ok () |}.

(** The rows of one episode, in frame order. *)
Definition episode_rows (episode : Episode) : result (list (gmap string json)) :=
  mapR (fun '(frame_idx, frame) => project_row_upload (episodeIndex episode) frame_idx frame)
       (enumerate (frames episode)).

Definition episode_meta (episode : Episode) : EpisodeMeta :=
  {| em_episode_index := episodeIndex episode;
     em_tasks := [episode_task episode];
     em_length := length (frames episode) |}.

(** What a frame offers for the two vector fields. *)
Definition frame_state (frame : gmap string json) : option json :=
  match dict_get frame "observation" (JDict ∅) with
  | JDict obs => obs !! "jointPositions"
  | _ => None
  end.

Definition frame_action_upload (frame : gmap string json) : option json :=
  match dict_get frame "action" (JDict ∅) with
  | JDict action =>
      match action !! "jointPositions" with
      | Some v => Some v
      | None => action !! "targetPositions"
      end
  | _ => None
  end.

Definition frame_action_convert (frame : gmap string json) : option json :=
  match dict_get frame "action" (JDict ∅) with
  | JDict action => action !! "jointPositions"
  | _ => None
  end.

(* ===================================================================== *)
(** ** Loops, maps and binds *)
(* ===================================================================== *)

Ltac case_bind H :=
  match type of H with
  | context [mbind _ ?m] =>
      let E := fresh "E" in
      destruct m eqn:E; simpl in H; try discriminate H
  | context [match ?m with Ok _ => _ | Err _ => _ end] =>
      let E := fresh "E" in
      destruct m eqn:E; simpl in H; try discriminate H
  end.

Lemma bind_Ok_inv {A B} (m : result A) (f : A -> result B) (b : B) :
  m ≫= f = Ok b -> exists a, m = Ok a /\ f a = Ok b.
Proof. destruct m as [a|e]; simpl; [eauto | discriminate]. Qed.

Lemma foldM_cons {S A} (f : S -> A -> result S) s x l :
  foldM f s (x :: l) = s' ← f s x; foldM f s' l.
Proof. reflexivity. Qed.

Ltac inv_binds :=
  repeat match goal with
  | H : mbind _ _ = Ok _ |- _ =>
      let a := fresh "a" in
      let E := fresh "E" in
      apply bind_Ok_inv in H as (a & E & H); cbv beta iota in E, H
  | H : Ok _ = Ok _ |- _ => injection H as H
  end.

Lemma mapR_cons {A B} (f : A -> result B) x l :
  mapR f (x :: l) = y ← f x; ys ← mapR f l; Ok (y :: ys).
Proof. reflexivity. Qed.

Lemma mapR_Forall2 {A B} (f : A -> result B) l ys :
  mapR f l = Ok ys <-> Forall2 (fun x y => f x = Ok y) l ys.
Proof.
  revert ys. induction l as [|x l IH]; intros ys.
  - simpl. split.
    + intros [= <-]. constructor.
    + intros H. inversion H. reflexivity.
  - rewrite mapR_cons. split.
    + intros H. case_bind H. case_bind H. injection H as <-.
      constructor; [assumption | by apply IH].
    + intros H. inversion H as [|? y ? ys' Hx Hl]; subst.
      rewrite Hx. simpl. apply IH in Hl. rewrite Hl. reflexivity.
Qed.

Lemma mapR_length {A B} (f : A -> result B) l ys :
  mapR f l = Ok ys -> length ys = length l.
Proof. intros H%mapR_Forall2. symmetry. by eapply Forall2_length. Qed.

Lemma mapR_ext_Forall {A B} (f g : A -> result B) l :
  Forall (fun x => f x = g x) l -> mapR f l = mapR g l.
Proof.
  induction 1 as [|x l Hx _ IH]; [reflexivity|].
  rewrite !mapR_cons, Hx, IH. reflexivity.
Qed.

Lemma mapR_map {A B C} (g : A -> B) (f : B -> result C) l :
  mapR f (map g l) = mapR (fun x => f (g x)) l.
Proof.
  induction l as [|x l IH]; [reflexivity|].
  simpl map. rewrite !mapR_cons, IH. reflexivity.
Qed.

Lemma mapR_app {A B} (f : A -> result B) l1 l2 :
  mapR f (l1 ++ l2) = ys1 ← mapR f l1; ys2 ← mapR f l2; Ok (ys1 ++ ys2).
Proof.
  induction l1 as [|x l1 IH].
  - simpl. destruct (mapR f l2); reflexivity.
  - simpl app. rewrite !mapR_cons, IH.
    destruct (f x); simpl; [|reflexivity].
    destruct (mapR f l1); simpl; [|reflexivity].
    destruct (mapR f l2); reflexivity.
Qed.

(** A loop that appends one computed element per iteration is a map. *)
Lemma foldM_append {A B} (step : list B -> A -> result (list B)) (f : A -> result B) l :
  Forall (fun x => forall acc, step acc x = y ← f x; Ok (acc ++ [y])) l ->
  forall acc, foldM step acc l = ys ← mapR f l; Ok (acc ++ ys).
Proof.
  induction 1 as [|x l Hx _ IH]; intros acc.
  - simpl. by rewrite app_nil_r.
  - simpl foldM. rewrite mapR_cons, Hx.
    destruct (f x) as [y|e]; simpl; [|reflexivity].
    rewrite IH. destruct (mapR f l); simpl; [|reflexivity].
    by rewrite <- app_assoc.
Qed.

Lemma enumerate_from_length {A} i (l : list A) :
  length (enumerate_from i l) = length l.
Proof. revert i. induction l; intros; simpl; [reflexivity | by rewrite IHl]. Qed.

Lemma enumerate_from_lookup {A} i (l : list A) k :
  enumerate_from i l !! k = (fun x => (i + k, x)) <$> (l !! k).
Proof.
  revert i k. induction l as [|x l IH]; intros i k; [by destruct k|].
  destruct k as [|k]; simpl.
  - by rewrite Nat.add_0_r.
  - rewrite IH. by replace (S i + k) with (i + S k) by lia.
Qed.

(* ===================================================================== *)
(** ** Row projection *)
(* ===================================================================== *)

Lemma py_contains_getitem key v x :
  py_contains key v = Ok true -> py_getitem v key = Ok x ->
  exists m, v = JDict m /\ m !! key = Some x.
Proof.
  destruct v; simpl; try discriminate. intros _.
  destruct (m !! key) eqn:E; [|discriminate]. intros [= <-]. eauto.
Qed.

Lemma py_contains_false key v :
  py_contains key v = Ok false ->
  match v with JDict m => m !! key = None | _ => True end.
Proof.
  destruct v; simpl; try done. intros [= H].
  apply bool_decide_eq_false in H. by apply eq_None_not_Some.
Qed.

Ltac project_cases H :=
  repeat match type of H with
  | context [py_contains ?k ?v] =>
      let E := fresh "Hin" in
      destruct (py_contains k v) as [[|]|] eqn:E; simpl in H; try discriminate H
  | context [py_getitem ?v ?k] =>
      let E := fresh "Hget" in
      destruct (py_getitem v k) eqn:E; simpl in H; try discriminate H
  end.

(** The four base fields of a directory-mode row. *)
Lemma project_row_upload_base ep_idx frame_idx frame row :
  project_row_upload ep_idx frame_idx frame = Ok row ->
  row !! "episode_index" = Some (JInt ep_idx) /\
  row !! "frame_index" = Some (JInt (Z.of_nat frame_idx)) /\
  row !! "timestamp" = Some (dict_get frame "timestamp" (default_timestamp frame_idx)) /\
  row !! "task_index" = Some (JInt 0).
Proof.
  unfold project_row_upload. intros H. project_cases H;
    injection H as <-; by simplify_map_eq.
Qed.

Lemma project_row_upload_state ep_idx frame_idx frame row :
  project_row_upload ep_idx frame_idx frame = Ok row ->
  row !! "observation.state" = frame_state frame.
Proof.
  unfold project_row_upload, frame_state. intros H. project_cases H;
    injection H as <-;
    repeat match goal with
    | Hi : py_contains ?k ?v = Ok true, Hg : py_getitem ?v ?k = Ok _ |- _ =>
        destruct (py_contains_getitem _ _ _ Hi Hg) as (? & ? & ?); clear Hi Hg
    | Hi : py_contains _ _ = Ok false |- _ => apply py_contains_false in Hi
    end;
    repeat match goal with
    | Heq : dict_get _ _ _ = JDict _ |- _ => rewrite Heq in *
    end;
    simplify_map_eq; try done;
    by destruct (dict_get frame "observation" (JDict ∅)).
Qed.

Lemma project_row_upload_action ep_idx frame_idx frame row :
  project_row_upload ep_idx frame_idx frame = Ok row ->
  row !! "action" = frame_action_upload frame.
Proof.
  unfold project_row_upload, frame_action_upload. intros H. project_cases H;
    injection H as <-;
    repeat match goal with
    | Hi : py_contains ?k ?v = Ok true, Hg : py_getitem ?v ?k = Ok _ |- _ =>
        destruct (py_contains_getitem _ _ _ Hi Hg) as (? & ? & ?); clear Hi Hg
    | Hi : py_contains _ _ = Ok false |- _ => apply py_contains_false in Hi
    end;
    repeat match goal with
    | Heq : dict_get _ _ _ = JDict _ |- _ => rewrite Heq in *
    end;
    simplify_map_eq; try done;
    by destruct (dict_get frame "action" (JDict ∅)); simplify_map_eq.
Qed.

(** The three base fields of a buffer-mode row; it has no [task_index]. *)
Lemma project_row_convert_base ep_idx frame_idx frame row :
  project_row_convert ep_idx frame_idx frame = Ok row ->
  row !! "episode_index" = Some (JInt ep_idx) /\
  row !! "frame_index" = Some (JInt (Z.of_nat frame_idx)) /\
  row !! "timestamp" = Some (dict_get frame "timestamp" (default_timestamp frame_idx)) /\
  row !! "task_index" = None.
Proof.
  unfold project_row_convert. intros H. project_cases H;
    injection H as <-; by simplify_map_eq.
Qed.

Lemma project_row_convert_state ep_idx frame_idx frame row :
  project_row_convert ep_idx frame_idx frame = Ok row ->
  row !! "observation.state" = frame_state frame.
Proof.
  unfold project_row_convert, frame_state. intros H. project_cases H;
    injection H as <-;
    repeat match goal with
    | Hi : py_contains ?k ?v = Ok true, Hg : py_getitem ?v ?k = Ok _ |- _ =>
        destruct (py_contains_getitem _ _ _ Hi Hg) as (? & ? & ?); clear Hi Hg
    | Hi : py_contains _ _ = Ok false |- _ => apply py_contains_false in Hi
    end;
    repeat match goal with
    | Heq : dict_get _ _ _ = JDict _ |- _ => rewrite Heq in *
    end;
    simplify_map_eq; try done;
    by destruct (dict_get frame "observation" (JDict ∅)).
Qed.

Lemma project_row_convert_action ep_idx frame_idx frame row :
  project_row_convert ep_idx frame_idx frame = Ok row ->
  row !! "action" = frame_action_convert frame.
Proof.
  unfold project_row_convert, frame_action_convert. intros H. project_cases H;
    injection H as <-;
    repeat match goal with
    | Hi : py_contains ?k ?v = Ok true, Hg : py_getitem ?v ?k = Ok _ |- _ =>
        destruct (py_contains_getitem _ _ _ Hi Hg) as (? & ? & ?); clear Hi Hg
    | Hi : py_contains _ _ = Ok false |- _ => apply py_contains_false in Hi
    end;
    repeat match goal with
    | Heq : dict_get _ _ _ = JDict _ |- _ => rewrite Heq in *
    end;
    simplify_map_eq; try done;
    by destruct (dict_get frame "action" (JDict ∅)); simplify_map_eq.
Qed.

(** A frame whose observation and action are absent or JSON objects always
    projects, in both modes. *)
Definition is_object_or_absent (frame : gmap string json) (key : string) : Prop :=
  match frame !! key with
  | Some (JDict _) | None => True
  | Some _ => False
  end.

Ltac decide_lookup :=
  match goal with
  | |- context [bool_decide (is_Some (?m !! ?k))] =>
      let E := fresh in
      let x := fresh "x" in
      destruct (m !! k) as [x|] eqn:E;
      [rewrite (bool_decide_eq_true_2 (is_Some (Some x))) by eauto
      |rewrite (bool_decide_eq_false_2 (is_Some (@None json)))
         by (by apply eq_None_not_Some)]
  end.

Lemma project_row_upload_total ep_idx frame_idx frame :
  is_object_or_absent frame "observation" ->
  is_object_or_absent frame "action" ->
  exists row, project_row_upload ep_idx frame_idx frame = Ok row.
Proof.
  unfold is_object_or_absent, project_row_upload, dict_get.
  intros Ho Ha.
  destruct (frame !! "observation") as [[]|]; try done;
    destruct (frame !! "action") as [[]|]; try done; simpl;
    repeat (decide_lookup; simpl); eauto.
Qed.

Lemma project_row_convert_total ep_idx frame_idx frame :
  is_object_or_absent frame "observation" ->
  is_object_or_absent frame "action" ->
  exists row, project_row_convert ep_idx frame_idx frame = Ok row.
Proof.
  unfold is_object_or_absent, project_row_convert, dict_get.
  intros Ho Ha.
  destruct (frame !! "observation") as [[]|]; try done;
    destruct (frame !! "action") as [[]|]; try done; simpl;
    repeat (decide_lookup; simpl); eauto.
Qed.

(* ===================================================================== *)
(** ** The episode loops *)
(* ===================================================================== *)

Lemma episode_rows_length episode rows :
  episode_rows episode = Ok rows -> length rows = length (frames episode).
Proof.
  intros H%mapR_length. rewrite H. apply enumerate_from_length.
Qed.

Lemma upload_episode_inv st episode st' :
  upload_episode st episode = Ok st' ->
  exists rows,
    episode_rows episode = Ok rows /\
    set_add (episode_task episode) (tasks st) = Ok (tasks st') /\
    all_rows st' = all_rows st ++ rows /\
    episode_metadata st' = episode_metadata st ++ [episode_meta episode].
Proof.
  unfold upload_episode. intros H. case_bind H.
  rewrite (foldM_append _
    (fun '(frame_idx, frame) => project_row_upload (episodeIndex episode) frame_idx frame))
    in H by (apply Forall_forall; intros [? ?] _ acc; reflexivity).
  fold (episode_rows episode) in H. case_bind H. case_bind E0.
  injection E0 as <-. injection H as <-. simpl. eauto.
Qed.

Lemma upload_loop_from_inv eps : forall st st',
  foldM upload_episode st eps = Ok st' ->
  exists rowss,
    mapR episode_rows eps = Ok rowss /\
    foldM (fun s ep => set_add (episode_task ep) s) (tasks st) eps = Ok (tasks st') /\
    all_rows st' = all_rows st ++ concat rowss /\
    episode_metadata st' = episode_metadata st ++ map episode_meta eps.
Proof.
  induction eps as [|ep eps IH]; intros st st' H.
  - injection H as <-. exists []. simpl. by rewrite !app_nil_r.
  - simpl in H. case_bind H.
    apply upload_episode_inv in E as (rows & Hrows & Hadd & Hall & Hmeta).
    apply IH in H as (rowss & Hrowss & Htasks & Hall' & Hmeta').
    exists (rows :: rowss). rewrite mapR_cons, Hrows. simpl. rewrite Hrowss. simpl.
    rewrite Hadd. simpl. rewrite Hall', Hall, Hmeta', Hmeta, <- !app_assoc.
    by repeat split.
Qed.

Lemma upload_loop_inv eps st :
  upload_loop eps = Ok st ->
  exists rowss,
    mapR episode_rows eps = Ok rowss /\
    foldM (fun s ep => set_add (episode_task ep) s) [] eps = Ok (tasks st) /\
    all_rows st = concat rowss /\
    episode_metadata st = map episode_meta eps.
Proof. intros H. by apply upload_loop_from_inv in H. Qed.

Lemma concat_episode_rows_length eps rowss :
  mapR episode_rows eps = Ok rowss -> length (concat rowss) = sum_frames eps.
Proof.
  revert rowss. induction eps as [|ep eps IH]; intros rowss H.
  - by injection H as <-.
  - rewrite mapR_cons in H. case_bind H. case_bind H. injection H as <-.
    simpl. rewrite length_app, (IH _ eq_refl). f_equal.
    by apply episode_rows_length.
Qed.

Lemma upload_loop_length eps st :
  upload_loop eps = Ok st -> length (all_rows st) = sum_frames eps.
Proof.
  intros (rowss & H & _ & -> & _)%upload_loop_inv.
  by apply concat_episode_rows_length.
Qed.

Lemma elem_of_concat {A} (x : A) (ls : list (list A)) :
  x ∈ concat ls <-> exists l, l ∈ ls /\ x ∈ l.
Proof.
  rewrite list_elem_of_In, in_concat. split.
  - intros (l & ? & ?). exists l. by rewrite !list_elem_of_In.
  - intros (l & ? & ?). exists l. by rewrite <- !list_elem_of_In.
Qed.

(** Every row of the batch is the projection of some frame at its position. *)
Lemma upload_loop_rows eps st row :
  upload_loop eps = Ok st -> row ∈ all_rows st ->
  exists episode frame_idx frame,
    episode ∈ eps /\ frames episode !! frame_idx = Some frame /\
    project_row_upload (episodeIndex episode) frame_idx frame = Ok row.
Proof.
  intros (rowss & H & _ & -> & _)%upload_loop_inv Hin.
  apply elem_of_concat in Hin as (rows & Hrows & Hrow).
  apply mapR_Forall2 in H.
  apply list_elem_of_lookup in Hrows as [i Hi].
  destruct (Forall2_lookup_r _ _ _ _ _ H Hi) as (ep & Hep & Hproj).
  unfold episode_rows in Hproj. apply mapR_Forall2 in Hproj.
  apply list_elem_of_lookup in Hrow as [k Hk].
  destruct (Forall2_lookup_r _ _ _ _ _ Hproj Hk) as ([k' fr] & Hfr & Hp).
  unfold enumerate in Hfr. rewrite enumerate_from_lookup in Hfr.
  destruct (frames ep !! k) as [fr'|] eqn:Efr; [|discriminate].
  injection Hfr as <- <-. exists ep, k, fr'.
  split; [by eapply list_elem_of_lookup_2|]. by split.
Qed.

(* ===================================================================== *)
(** ** The columnar encoder *)
(* ===================================================================== *)

Lemma infer_schema_inv sample_row schema_fields :
  infer_schema sample_row = Ok schema_fields ->
  exists st ac,
    schema_fields = base_schema ++ st ++ ac /\
    match sample_row !! "observation.state" with
    | Some v => exists n, py_len v = Ok n /\ st = [("observation.state", list_ float32 n)]
    | None => st = []
    end /\
    match sample_row !! "action" with
    | Some v => exists n, py_len v = Ok n /\ ac = [("action", list_ float32 n)]
    | None => ac = []
    end.
Proof.
  unfold infer_schema. intros H.
  destruct (sample_row !! "observation.state") as [v|];
    destruct (sample_row !! "action") as [w|]; simpl in H;
    repeat match type of H with
    | context [py_len ?x] =>
        let n := fresh "n" in
        destruct (py_len x) as [n|]; simpl in H; [|discriminate H]
    end;
    injection H as <-.
  - exists [("observation.state", list_ float32 n)], [("action", list_ float32 n0)].
    eauto 10.
  - exists [("observation.state", list_ float32 n)], []. eauto 10.
  - exists [], [("action", list_ float32 n)]. eauto 10.
  - exists [], []. eauto.
Qed.

Lemma infer_schema_NoDup sample_row schema_fields :
  infer_schema sample_row = Ok schema_fields -> NoDup schema_fields.*1.
Proof.
  intros (st & ac & -> & Hst & Hac)%infer_schema_inv.
  destruct (sample_row !! "observation.state");
    destruct (sample_row !! "action");
    repeat match goal with
    | H : exists _, _ |- _ => destruct H as (? & _ & ->)
    | H : _ = [] |- _ => rewrite H
    end; simpl; apply (bool_decide_unpack _); by vm_compute.
Qed.

Section Encoder.
Context `{RT : Runtime}.

(** One pass of the inner loop appends one value to the column of every
    schema field and leaves the other columns alone. *)
Lemma fill_row_lookup row (fields : list (string * DataType)) :
  forall (cols cols' : gmap string (list json)),
  foldM
    (fun (columns : gmap string (list json)) '(field_name, _) =>
       x ← column_value row field_name;
       Ok (alter (fun col => col ++ [x]) field_name columns))
    cols fields = Ok cols' ->
  NoDup fields.*1 ->
  forall name,
    (name ∈ fields.*1 ->
     exists x, column_value row name = Ok x /\
               cols' !! name = (fun c => c ++ [x]) <$> (cols !! name)) /\
    (name ∉ fields.*1 -> cols' !! name = cols !! name).
Proof.
  induction fields as [|[n0 ty] fields IH]; intros cols cols' H Hnd name.
  - injection H as <-. split; [by intros ?%elem_of_nil | done].
  - rewrite foldM_cons in H. inv_binds. subst a.
    simpl in Hnd. apply NoDup_cons in Hnd as [Hn0 Hnd].
    destruct (IH _ _ H Hnd name) as [IHin IHout].
    destruct (IH _ _ H Hnd n0) as [_ IHn0].
    split.
    + simpl. intros [->|Hin]%elem_of_cons.
      * exists a0. split; [done|]. rewrite (IHn0 Hn0). by rewrite lookup_alter_eq.
      * destruct (IHin Hin) as (x & Hx & Hl). exists x. split; [done|].
        rewrite Hl, lookup_alter_ne; [done|]. by intros ->.
    + simpl. intros Hout%not_elem_of_cons. destruct Hout as [Hne Hout].
      rewrite (IHout Hout), lookup_alter_ne; done.
Qed.

Lemma fill_rows_lookup (schema_fields : list (string * DataType)) rows :
  forall (cols0 cols : gmap string (list json)),
  foldM
    (fun columns row =>
       foldM
         (fun (columns : gmap string (list json)) '(field_name, _) =>
            x ← column_value row field_name;
            Ok (alter (fun col => col ++ [x]) field_name columns))
         columns schema_fields)
    cols0 rows = Ok cols ->
  NoDup schema_fields.*1 ->
  forall name, name ∈ schema_fields.*1 ->
    exists col, mapR (fun row => column_value row name) rows = Ok col /\
                cols !! name = (fun c => c ++ col) <$> (cols0 !! name).
Proof.
  induction rows as [|row rows IH]; intros cols0 cols H Hnd name Hin.
  - injection H as <-. exists []. split; [done|].
    destruct (cols0 !! name); simpl; [by rewrite app_nil_r | done].
  - rewrite foldM_cons in H. inv_binds.
    destruct (fill_row_lookup _ _ _ _ E Hnd name) as [Hrow _].
    destruct (Hrow Hin) as (x & Hx & Hl).
    destruct (IH _ _ H Hnd name Hin) as (col & Hcol & Hl').
    exists (x :: col). rewrite mapR_cons, Hx. simpl. rewrite Hcol. simpl.
    split; [done|]. rewrite Hl', Hl.
    destruct (cols0 !! name); simpl; [by rewrite <- app_assoc | done].
Qed.

Lemma empty_columns_lookup (schema_fields : list (string * DataType)) name :
  name ∈ schema_fields.*1 ->
  (list_to_map (map (fun field => (fst field, [])) schema_fields)
     : gmap string (list json)) !! name = Some [].
Proof.
  induction schema_fields as [|[n ty] fields IH]; simpl.
  - by intros ?%elem_of_nil.
  - intros Hin. destruct (decide (n = name)) as [->|Hne].
    + by rewrite lookup_insert_eq.
    + rewrite lookup_insert_ne by done. apply IH.
      apply elem_of_cons in Hin as [?|?]; [congruence | done].
Qed.

(** The column of a schema field holds the value of that field for every
    row, in row order. *)
Lemma fill_columns_lookup schema_fields rows cols name :
  fill_columns schema_fields rows = Ok cols ->
  NoDup schema_fields.*1 -> name ∈ schema_fields.*1 ->
  exists col, mapR (fun row => column_value row name) rows = Ok col /\
              cols !! name = Some col.
Proof.
  unfold fill_columns. intros H Hnd Hin.
  destruct (fill_rows_lookup _ _ _ _ H Hnd name Hin) as (col & Hcol & Hl).
  exists col. split; [done|]. by rewrite Hl, empty_columns_lookup.
Qed.

Lemma pa_array_inv values ty arr :
  pa_array values ty = Ok arr ->
  exists vals, arr = TypedArray ty vals /\ mapR (pa_convert ty) values = Ok vals.
Proof.
  unfold pa_array. intros H. case_bind H. injection H as <-. eauto.
Qed.

Lemma pa_array_len values ty arr :
  pa_array values ty = Ok arr -> array_len arr = length values.
Proof.
  intros (vals & -> & H)%pa_array_inv. simpl. by eapply mapR_length.
Qed.

Lemma pa_table_inv cols t : pa_table cols = Ok t -> table_columns t = cols.
Proof.
  unfold pa_table. destruct cols as [|[n a] rest].
  - by intros [= <-].
  - destruct (forallb _ rest); [by intros [= <-] | discriminate].
Qed.

Lemma pa_table_equal_lengths cols n :
  Forall (fun c => array_len c.2 = n) cols ->
  pa_table cols = Ok {| table_columns := cols |}.
Proof.
  unfold pa_table. destruct cols as [|[name a] rest]; [done|].
  intros H. apply Forall_cons in H as [Ha Hrest]. simpl in Ha.
  replace (forallb _ rest) with true; [done|].
  symmetry. apply forallb_forall. intros c Hc.
  rewrite Forall_forall in Hrest. apply list_elem_of_In in Hc.
  rewrite (Hrest c Hc), Ha. apply Nat.eqb_refl.
Qed.

(** When every schema field has a non-empty column, the array loop makes one
    array per schema field, in schema order. *)
Lemma make_table_arrays (schema_fields : list (string * DataType))
    (columns : gmap string (list json)) :
  Forall (fun field => exists x col, columns !! field.1 = Some (x :: col)) schema_fields ->
  make_table schema_fields columns =
    named_arrays ← mapR (fun '(field_name, field_type) =>
                           arr ← pa_array (default [] (columns !! field_name)) field_type;
                           Ok (field_name, arr))
                        schema_fields;
    pa_table named_arrays.
Proof.
  intros Hcols. unfold make_table.
  rewrite (foldM_append _
    (fun '(field_name, field_type) =>
       arr ← pa_array (default [] (columns !! field_name)) field_type;
       Ok (field_name, arr))).
  - by destruct (mapR _ schema_fields).
  - eapply Forall_impl; [exact Hcols|].
    intros [name ty] (x & col & Hl) acc. simpl in Hl. rewrite Hl. simpl.
    by destruct (pa_array (x :: col) ty).
Qed.

End Encoder.

Section Tables.
Context `{RT : Runtime}.

(** How a schema field and the rows determine a column of the table. *)
Definition column_of (rows : list (gmap string json)) (field : string * DataType)
    (named : string * Array) : Prop :=
  named.1 = field.1 /\
  exists col, mapR (fun row => column_value row field.1) rows = Ok col /\
              pa_array col field.2 = Ok named.2.

Lemma encode_table_inv rows t :
  encode_table rows = Ok (Some t) ->
  exists sample_row rest schema_fields,
    rows = sample_row :: rest /\
    infer_schema sample_row = Ok schema_fields /\
    Forall2 (column_of rows) schema_fields (table_columns t).
Proof.
  unfold encode_table. destruct rows as [|sample_row rest]; [discriminate|].
  intros H. inv_binds. subst a1. rename a into schema_fields, a0 into cols.
  exists sample_row, rest, schema_fields. split; [done|]. split; [done|].
  pose proof (infer_schema_NoDup _ _ E) as Hnd.
  assert (Hcols : forall field, field ∈ schema_fields ->
            exists col, mapR (fun row => column_value row field.1)
                          (sample_row :: rest) = Ok col /\
                        cols !! field.1 = Some col).
  { intros field Hin. eapply fill_columns_lookup; [done..|].
    by apply list_elem_of_fmap_2. }
  rewrite make_table_arrays in E1.
  - inv_binds. apply pa_table_inv in E1. rewrite E1.
    apply mapR_Forall2 in E2.
    eapply Forall2_same_length_lookup_2; [by eapply Forall2_length|].
    intros i [name ty] [name' arr] Hi Hi'.
    pose proof (Forall2_lookup_lr _ _ _ _ _ _ E2 Hi Hi') as Hna.
    simpl in Hna. inv_binds. subst name' a0.
    destruct (Hcols (name, ty)) as (col & Hcol & Hl);
      [by eapply list_elem_of_lookup_2|].
    simpl in Hl. rewrite Hl in E3. simpl in E3.
    split; [done|]. exists col. by split.
  - apply Forall_forall. intros field Hin.
    destruct (Hcols field Hin) as (col & Hcol & Hl).
    apply mapR_length in Hcol. destruct col as [|x col]; [discriminate|]. eauto.
Qed.

Lemma column_of_len rows field named :
  column_of rows field named -> array_len named.2 = length rows.
Proof.
  intros (_ & col & Hcol & Harr).
  rewrite (pa_array_len _ _ _ Harr). by eapply mapR_length.
Qed.

Lemma infer_schema_base sample_row schema_fields :
  infer_schema sample_row = Ok schema_fields ->
  exists more, schema_fields = base_schema ++ more.
Proof. intros (st & ac & -> & _)%infer_schema_inv. eauto. Qed.

(** The encoded table has one row per projected row, in every column. *)
Lemma encode_table_rows rows t :
  encode_table rows = Ok (Some t) ->
  num_rows t = length rows /\
  Forall (fun c => array_len c.2 = length rows) (table_columns t).
Proof.
  intros (sample_row & rest & schema_fields & -> & Hsch & Hcols)%encode_table_inv.
  assert (Hall : Forall (fun c => array_len c.2 = length (sample_row :: rest))
                   (table_columns t)).
  { apply Forall_forall. intros c Hc.
    apply list_elem_of_lookup in Hc as [i Hi].
    destruct (Forall2_lookup_r _ _ _ _ _ Hcols Hi) as (field & _ & Hf).
    by eapply column_of_len. }
  split; [|done].
  destruct (infer_schema_base _ _ Hsch) as (more & ->).
  unfold num_rows. inversion Hcols as [|? c ? cs Hc Hcs Heq1 Heq2]; subst.
  destruct c as [name arr]. by eapply (column_of_len _ _ (name, arr)).
Qed.

Lemma encode_table_nonempty row rows topt :
  encode_table (row :: rows) = Ok topt -> exists t, topt = Some t.
Proof. unfold encode_table. intros H. inv_binds. eauto. Qed.

End Tables.

(* ===================================================================== *)
(** ** From frames to rows *)
(* ===================================================================== *)

(** The buffer-mode rows of one episode, in frame order. *)
Definition episode_rows_convert (episode : Episode) : result (list (gmap string json)) :=
  mapR (fun '(frame_idx, frame) => project_row_convert (episodeIndex episode) frame_idx frame)
       (enumerate (frames episode)).

Lemma mapR_enumerate_lookup {A B} (f : nat -> A -> result B) (l : list A) ys k x :
  mapR (fun '(i, a) => f i a) (enumerate l) = Ok ys ->
  l !! k = Some x ->
  exists y, ys !! k = Some y /\ f k x = Ok y.
Proof.
  intros H%mapR_Forall2 Hk.
  assert (Hek : enumerate l !! k = Some (k, x)).
  { unfold enumerate. by rewrite enumerate_from_lookup, Hk. }
  destruct (Forall2_lookup_l _ _ _ _ _ H Hek) as (y & Hy & Hf). eauto.
Qed.

Lemma mapR_elem_of {A B} (g : A -> result B) (l : list A) ys x :
  mapR g l = Ok ys -> x ∈ l -> exists y, g x = Ok y /\ y ∈ ys.
Proof.
  intros H%mapR_Forall2 [i Hi]%list_elem_of_lookup.
  destruct (Forall2_lookup_l _ _ _ _ _ H Hi) as (y & Hy & Hg).
  exists y. split; [done|]. by eapply list_elem_of_lookup_2.
Qed.

(** A loop that extends a list by a computed block per iteration. *)
Lemma foldM_extend {A B} (step : list B -> A -> result (list B))
    (f : A -> result (list B)) l :
  Forall (fun x => forall acc, step acc x = ys ← f x; Ok (acc ++ ys)) l ->
  forall acc, foldM step acc l = yss ← mapR f l; Ok (acc ++ concat yss).
Proof.
  induction 1 as [|x l Hx _ IH]; intros acc.
  - simpl. by rewrite app_nil_r.
  - rewrite foldM_cons, mapR_cons, Hx.
    destruct (f x) as [y|e]; simpl; [|reflexivity].
    rewrite IH. destruct (mapR f l); simpl; [|reflexivity].
    by rewrite <- app_assoc.
Qed.

Lemma convert_loop_eq eps :
  convert_loop eps = rowss ← mapR episode_rows_convert eps; Ok (concat rowss).
Proof.
  unfold convert_loop.
  rewrite (foldM_extend _ episode_rows_convert); [done|].
  apply Forall_forall. intros ep _ acc.
  apply (foldM_append _
    (fun '(frame_idx, frame) => project_row_convert (episodeIndex ep) frame_idx frame)).
  apply Forall_forall. by intros [? ?] _ ?.
Qed.

Lemma sum_frames_app eps1 eps2 :
  sum_frames (eps1 ++ eps2) = sum_frames eps1 + sum_frames eps2.
Proof. induction eps1; simpl; [done | lia]. Qed.

Lemma convert_loop_length eps rows :
  convert_loop eps = Ok rows -> length rows = sum_frames eps.
Proof.
  rewrite convert_loop_eq. intros H. inv_binds. subst rows.
  revert a E. induction eps as [|ep eps IH]; intros rowss H.
  - by injection H as <-.
  - rewrite mapR_cons in H. inv_binds. subst rowss. simpl.
    rewrite length_app, (IH _ E0). f_equal.
    apply mapR_length in E. rewrite E. apply enumerate_from_length.
Qed.

(** In directory mode every frame of the batch has its row. *)
Lemma upload_loop_frame eps st episode frame_idx frame :
  upload_loop eps = Ok st ->
  episode ∈ eps -> frames episode !! frame_idx = Some frame ->
  exists row, project_row_upload (episodeIndex episode) frame_idx frame = Ok row /\
              row ∈ all_rows st.
Proof.
  intros (rowss & H & _ & -> & _)%upload_loop_inv Hep Hfr.
  destruct (mapR_elem_of _ _ _ _ H Hep) as (rows & Hrows & Hin).
  destruct (mapR_enumerate_lookup _ _ _ _ _ Hrows Hfr) as (row & Hk & Hrow).
  exists row. split; [done|]. apply elem_of_concat.
  exists rows. split; [done|]. by eapply list_elem_of_lookup_2.
Qed.

(** In buffer mode too. *)
Lemma convert_loop_frame eps rows episode frame_idx frame :
  convert_loop eps = Ok rows ->
  episode ∈ eps -> frames episode !! frame_idx = Some frame ->
  exists row, project_row_convert (episodeIndex episode) frame_idx frame = Ok row /\
              row ∈ rows.
Proof.
  rewrite convert_loop_eq. intros H Hep Hfr. inv_binds. subst rows.
  destruct (mapR_elem_of _ _ _ _ E Hep) as (rows & Hrows & Hin).
  destruct (mapR_enumerate_lookup _ _ _ _ _ Hrows Hfr) as (row & Hk & Hrow).
  exists row. split; [done|]. apply elem_of_concat.
  exists rows. split; [done|]. by eapply list_elem_of_lookup_2.
Qed.

Lemma sum_list_lengths eps :
  sum_list (map (fun ep => length (frames ep)) eps) = sum_frames eps.
Proof. induction eps; simpl; [done | by rewrite IHeps]. Qed.

(* ===================================================================== *)
(** ** Counts of the bundle *)
(* ===================================================================== *)

Section Bundles.
Context `{RT : Runtime}.

Lemma build_dataset_inv request repo_id bundle :
  build_dataset request repo_id = Ok bundle ->
  exists st table info,
    upload_loop (episodes request) = Ok st /\
    encode_table (all_rows st) = Ok table /\
    match table with
    | Some t => exists bytes, pq_write_table t = Ok bytes /\
                              data_parquet bundle = Some bytes
    | None => data_parquet bundle = None
    end /\
    make_info request (all_rows st) = Ok info /\
    info_json bundle = info /\
    episodes_jsonl bundle = episode_metadata st /\
    tasks_jsonl bundle = make_tasks (tasks st).
Proof.
  unfold build_dataset. intros H. inv_binds. subst bundle. simpl.
  exists a, a0, a2. repeat (split; [done|]). split; [|done].
  destruct a0 as [t|]; inv_binds; [|by subst].
  subst a1. eauto.
Qed.

(** C1. For every batch with at least one frame that directory mode
    compiles, the encoded table has one row per frame of the batch (in every
    column), [total_frames] of [info.json] is that same number, every line of
    [episodes.jsonl] carries the frame count of its episode (so the lengths
    add up to [total_frames]), and [total_episodes] is the number of
    episodes. *)
Theorem upload_counts_agree (request : UploadRequest) (repo_id : string)
    (bundle : Bundle) :
  0 < sum_frames (episodes request) ->
  build_dataset request repo_id = Ok bundle ->
  exists table bytes,
    upload_table request = Ok (Some table) /\
    pq_write_table table = Ok bytes /\
    data_parquet bundle = Some bytes /\
    num_rows table = sum_frames (episodes request) /\
    Forall (fun c => array_len c.2 = sum_frames (episodes request))
           (table_columns table) /\
    total_frames (info_json bundle) = sum_frames (episodes request) /\
    map em_length (episodes_jsonl bundle)
      = map (fun ep => length (frames ep)) (episodes request) /\
    sum_list (map em_length (episodes_jsonl bundle))
      = total_frames (info_json bundle) /\
    total_episodes (info_json bundle) = length (episodes request).
Proof.
  intros Hpos (st & table & info & Hloop & Henc & Hfile & Hinfo & -> & -> & _)%build_dataset_inv.
  pose proof (upload_loop_length _ _ Hloop) as Hlen.
  destruct (all_rows st) as [|row0 rest] eqn:Hrows; [simpl in Hlen; lia|].
  destruct (encode_table_nonempty _ _ _ Henc) as (t & ->).
  destruct Hfile as (bytes & Hw & Hdata).
  destruct (encode_table_rows _ _ Henc) as [Hn Hcols].
  rewrite Hlen in Hn, Hcols.
  assert (Hmeta : map em_length (episode_metadata st)
                  = map (fun ep => length (frames ep)) (episodes request)).
  { apply upload_loop_inv in Hloop as (_ & _ & _ & _ & ->).
    by rewrite map_map. }
  unfold make_info in Hinfo. inv_binds. subst info. simpl.
  exists t, bytes. unfold upload_table. rewrite Hloop. simpl. rewrite Hrows, Henc.
  rewrite Hmeta, sum_list_lengths. by repeat split.
Qed.

End Bundles.

Lemma is_ok_true {A} (r : result A) : is_ok r = true -> exists a, r = Ok a.
Proof. destruct r; [eauto | discriminate]. Qed.

(** The specification's scenario and a second episode, compiled with the test
    runtime: four rows, four frames, lengths three and one. *)
Lemma upload_counts_agree_witness :
  exists table,
    @upload_table test_runtime (request_of [cube_episode; target_episode]) = Ok (Some table) /\
    num_rows table = 4.
Proof.
  edestruct (@upload_counts_agree test_runtime
               (request_of [cube_episode; target_episode]) "alice/cubes")
    as (table & bytes & Ht & _ & _ & Hn & _).
  - vm_compute. lia.
  - vm_compute. reflexivity.
  - exists table. split; [exact Ht | exact Hn].
Defined.

(* ===================================================================== *)
(** ** Row-level rules: task index, timestamp, action *)
(* ===================================================================== *)

(** C7. In directory mode every frame of every episode is projected to a
    row whose [task_index] is 0, whatever the task of its episode and however
    many distinct tasks the batch has; the rows are these projections and
    nothing else. *)
Theorem task_index_always_zero (request : UploadRequest) (st : LoopState) :
  upload_loop (episodes request) = Ok st ->
  (forall episode frame_idx frame,
     episode ∈ episodes request ->
     frames episode !! frame_idx = Some frame ->
     exists row,
       project_row_upload (episodeIndex episode) frame_idx frame = Ok row /\
       row ∈ all_rows st /\
       row !! "task_index" = Some (JInt 0)) /\
  Forall (fun row => row !! "task_index" = Some (JInt 0)) (all_rows st) /\
  length (all_rows st) = sum_frames (episodes request).
Proof.
  intros Hloop. split; [|split].
  - intros episode frame_idx frame Hep Hfr.
    destruct (upload_loop_frame _ _ _ _ _ Hloop Hep Hfr) as (row & Hrow & Hin).
    exists row. split; [done|]. split; [done|].
    by apply project_row_upload_base in Hrow as (_ & _ & _ & ?).
  - apply Forall_forall. intros row Hin.
    destruct (upload_loop_rows _ _ _ Hloop Hin) as (ep & k & fr & _ & _ & Hrow).
    by apply project_row_upload_base in Hrow as (_ & _ & _ & ?).
  - by apply upload_loop_length.
Qed.

(** Two episodes with two different tasks: all four rows carry task index 0. *)
Lemma task_index_always_zero_witness :
  exists st,
    upload_loop [cube_episode; target_episode] = Ok st /\
    episode_task cube_episode <> episode_task target_episode /\
    Forall (fun row => row !! "task_index" = Some (JInt 0)) (all_rows st) /\
    length (all_rows st) = 4.
Proof.
  destruct (is_ok_true (upload_loop [cube_episode; target_episode])) as [st Hst];
    [vm_compute; reflexivity|].
  exists st. split; [exact Hst|]. split; [discriminate|].
  exact (proj2 (task_index_always_zero
                  (request_of [cube_episode; target_episode]) st Hst)).
Defined.

(** The timestamp a frame is given: its own, else its position over 30.0. *)
Definition expected_timestamp (frame_idx : nat) (frame : gmap string json) : json :=
  match frame !! "timestamp" with
  | Some t => t
  | None => JFloat (float_of_Z (Z.of_nat frame_idx) / 30)%float
  end.

(** C5. In both modes, the frame at position [frame_idx] of its episode is
    projected to a row whose timestamp is the frame's own when it has one and
    [frame_idx / 30.0] otherwise; the request's metadata, [fps] included,
    plays no part. *)
Theorem missing_timestamp_default (request : UploadRequest)
    (episode : Episode) (frame_idx : nat) (frame : gmap string json) :
  episode ∈ episodes request ->
  frames episode !! frame_idx = Some frame ->
  (forall st, upload_loop (episodes request) = Ok st ->
     exists row,
       project_row_upload (episodeIndex episode) frame_idx frame = Ok row /\
       row ∈ all_rows st /\
       row !! "timestamp" = Some (expected_timestamp frame_idx frame)) /\
  (forall rows, convert_loop (episodes request) = Ok rows ->
     exists row,
       project_row_convert (episodeIndex episode) frame_idx frame = Ok row /\
       row ∈ rows /\
       row !! "timestamp" = Some (expected_timestamp frame_idx frame)).
Proof.
  intros Hep Hfr. split.
  - intros st Hloop.
    destruct (upload_loop_frame _ _ _ _ _ Hloop Hep Hfr) as (row & Hrow & Hin).
    exists row. split; [done|]. split; [done|].
    apply project_row_upload_base in Hrow as (_ & _ & -> & _).
    unfold expected_timestamp, dict_get, default_timestamp.
    by destruct (frame !! "timestamp").
  - intros rows Hloop.
    destruct (convert_loop_frame _ _ _ _ _ Hloop Hep Hfr) as (row & Hrow & Hin).
    exists row. split; [done|]. split; [done|].
    apply project_row_convert_base in Hrow as (_ & _ & -> & _).
    unfold expected_timestamp, dict_get, default_timestamp.
    by destruct (frame !! "timestamp").
Qed.

(** The third frame of the scenario has no timestamp: with [fps] declared as
    50 its timestamp is still 2/30.0. *)
Lemma missing_timestamp_default_witness :
  fps (request_metadata (request_of [cube_episode])) = 50%Z /\
  exists st row,
    upload_loop [cube_episode] = Ok st /\ row ∈ all_rows st /\
    row !! "frame_index" = Some (JInt 2) /\
    row !! "timestamp" = Some (JFloat (2 / 30)%float).
Proof.
  split; [reflexivity|].
  destruct (is_ok_true (upload_loop [cube_episode])) as [st Hst];
    [vm_compute; reflexivity|].
  edestruct (missing_timestamp_default (request_of [cube_episode]) cube_episode 2)
    as [Hup _].
  - apply list_elem_of_here.
  - reflexivity.
  - destruct (Hup st Hst) as (row & Hrow & Hin & Hts).
    exists st, row. split; [exact Hst|]. split; [exact Hin|]. split.
    + by apply project_row_upload_base in Hrow as (_ & ? & _).
    + rewrite Hts. vm_compute. reflexivity.
Defined.

(** A frame whose action has only [targetPositions]. *)
Definition target_only_frame : gmap string json :=
  <["action" := JDict (<["targetPositions" := zeros6]> ∅)]> ∅.

(** The action rule of directory mode: [jointPositions] first, else
    [targetPositions], else no action field. *)
Lemma upload_action_priority ep_idx frame_idx frame row (action : gmap string json) :
  project_row_upload ep_idx frame_idx frame = Ok row ->
  frame !! "action" = Some (JDict action) ->
  row !! "action" =
    match action !! "jointPositions" with
    | Some joint => Some joint
    | None => action !! "targetPositions"
    end.
Proof.
  intros Hrow Hact. rewrite (project_row_upload_action _ _ _ _ Hrow).
  unfold frame_action_upload, dict_get. by rewrite Hact.
Qed.

(** The action rule of buffer mode: [jointPositions] or nothing. *)
Lemma convert_action_joint_only ep_idx frame_idx frame row (action : gmap string json) :
  project_row_convert ep_idx frame_idx frame = Ok row ->
  frame !! "action" = Some (JDict action) ->
  row !! "action" = action !! "jointPositions".
Proof.
  intros Hrow Hact. rewrite (project_row_convert_action _ _ _ _ Hrow).
  unfold frame_action_convert, dict_get. by rewrite Hact.
Qed.

(** C4, at a frame with only [targetPositions]: directory mode projects
    the action to the target positions, buffer mode projects no action at
    all. *)
Theorem convert_drops_target_positions :
  (exists row, project_row_upload 0 0 target_only_frame = Ok row /\
               row !! "action" = Some zeros6) /\
  (exists row, project_row_convert 0 0 target_only_frame = Ok row /\
               row !! "action" = None).
Proof.
  split.
  - destruct (is_ok_true (project_row_upload 0 0 target_only_frame)) as [row Hrow];
      [vm_compute; reflexivity|].
    exists row. split; [exact Hrow|].
    rewrite (project_row_upload_action _ _ _ _ Hrow). vm_compute. reflexivity.
  - destruct (is_ok_true (project_row_convert 0 0 target_only_frame)) as [row Hrow];
      [vm_compute; reflexivity|].
    exists row. split; [exact Hrow|].
    rewrite (project_row_convert_action _ _ _ _ Hrow). vm_compute. reflexivity.
Qed.

(* ===================================================================== *)
(** ** Feature descriptors of [info.json] *)
(* ===================================================================== *)

Section Features.
Context `{RT : Runtime}.

(** C9. For a batch with at least one row, the descriptors of
    [observation.state] and [action] in [info.json] declare the shape [[W]],
    [W] being the length of that field in the first row (0 when the first row
    lacks it), and both declare the six names [joint_1 .. joint_5, gripper],
    whatever [W] is. *)
Theorem feature_shapes_from_first_row (request : UploadRequest) (repo_id : string)
    (bundle : Bundle) (st : LoopState) (row0 : gmap string json)
    (rest : list (gmap string json)) :
  build_dataset request repo_id = Ok bundle ->
  upload_loop (episodes request) = Ok st ->
  all_rows st = row0 :: rest ->
  let descriptor key :=
    if String.eqb key "action" then feature_action (info_json bundle)
    else feature_observation_state (info_json bundle) in
  forall key, key = "observation.state" \/ key = "action" ->
    (exists W, py_len (dict_get row0 key (JList [])) = Ok W /\
               shape (descriptor key) = [W]) /\
    (row0 !! key = None -> shape (descriptor key) = [0]) /\
    (forall l, row0 !! key = Some (JList l) -> shape (descriptor key) = [length l]) /\
    names (descriptor key) =
      ["joint_1"; "joint_2"; "joint_3"; "joint_4"; "joint_5"; "gripper"] /\
    dtype (descriptor key) = "float32".
Proof.
  intros (st' & table & info & Hloop' & _ & _ & Hinfo & <- & _)%build_dataset_inv Hloop Hrows.
  rewrite Hloop in Hloop'. injection Hloop' as <-.
  rewrite Hrows in Hinfo. unfold make_info, feature_shape in Hinfo.
  inv_binds. subst a a0. rewrite <- Hinfo. simpl. clear Hinfo.
  intros key [-> | ->]; simpl.
  - split; [eauto|]. split; [|split; [|done]].
    + intros Hnone. unfold dict_get in E2. rewrite Hnone in E2. simpl in E2.
      by injection E2 as <-.
    + intros l Hl. unfold dict_get in E2. rewrite Hl in E2. simpl in E2.
      by injection E2 as <-.
  - split; [eauto|]. split; [|split; [|done]].
    + intros Hnone. unfold dict_get in E1. rewrite Hnone in E1. simpl in E1.
      by injection E1 as <-.
    + intros l Hl. unfold dict_get in E1. rewrite Hl in E1. simpl in E1.
      by injection E1 as <-.
Qed.

End Features.

(** An episode with three joints: the shape is [[3]], the names are still six. *)
Definition three_joint_episode : Episode :=
  {| episodeIndex := 7;
     frames := [frame_of (JList (replicate 3 (JInt 0))) (JList (replicate 3 (JInt 1)))];
     metadata := ∅ |}.

Lemma feature_shapes_from_first_row_witness :
  exists bundle,
    @build_dataset test_runtime (request_of [three_joint_episode]) "alice/cubes" = Ok bundle /\
    shape (feature_action (info_json bundle)) = [3] /\
    length (names (feature_action (info_json bundle))) = 6.
Proof.
  destruct (is_ok_true (@build_dataset test_runtime
              (request_of [three_joint_episode]) "alice/cubes")) as [bundle Hb];
    [vm_compute; reflexivity|].
  destruct (is_ok_true (upload_loop (episodes (request_of [three_joint_episode]))))
    as [st Hst]; [vm_compute; reflexivity|].
  assert (Hfirst :
    match upload_loop (episodes (request_of [three_joint_episode])) with
    | Ok st' =>
        match all_rows st' with
        | row0 :: _ =>
            match row0 !! "action" with
            | Some (JList l) => Nat.eqb (length l) 3
            | _ => false
            end
        | [] => false
        end
    | Err _ => false
    end = true) by (vm_compute; reflexivity).
  rewrite Hst in Hfirst.
  destruct (all_rows st) as [|row0 rest] eqn:Hrows; [discriminate|].
  destruct (row0 !! "action") as [[| | | | |l|]|] eqn:Hl; try discriminate.
  apply Nat.eqb_eq in Hfirst.
  destruct (@feature_shapes_from_first_row test_runtime _ _ _ _ _ _ Hb Hst Hrows "action")
    as (_ & _ & Hshape & Hnames & _); [by right|].
  simpl in Hshape, Hnames.
  exists bundle. split; [exact Hb|]. split.
  - rewrite (Hshape l Hl), Hfirst. reflexivity.
  - rewrite Hnames. reflexivity.
Defined.

(* ===================================================================== *)
(** ** Buffer mode: the response and the empty batch *)
(* ===================================================================== *)

Definition status_of (e : exn) : option Z :=
  match e with
  | HTTPException status_code _ => Some status_code
  | _ => None
  end.

Lemma hex_length bs : String.length (hex bs) = 2 * length bs.
Proof. induction bs as [|b bs IH]; simpl; [done | rewrite IH; lia]. Qed.

Section Buffer.
Context `{RT : Runtime}.

(** C6, the failing input and what surrounds it.  A batch without frames
    raises the 400 of line 367 inside the [try] block, and the only handler
    (lines 394-395) turns it into a 500: the caller gets the status of every
    other failure of the endpoint, with the 400 left in the detail text. *)
Theorem convert_empty_is_500 :
  convert_to_parquet [] =
    Err (HTTPException 500 (StrOf (HTTPException 400 (Msg "No frames to convert")))) /\
  (forall eps,
     match convert_to_parquet eps with
     | Ok _ => True
     | Err e => status_of e = Some 500%Z
     end).
Proof.
  split; [reflexivity|].
  intros eps. unfold convert_to_parquet, try_except.
  by destruct (_ ≫= _).
Qed.

(** Any batch without frames gets that same 500. *)
Lemma convert_no_frames_is_500 eps :
  sum_frames eps = 0 ->
  (exists rows, convert_loop eps = Ok rows) ->
  convert_to_parquet eps =
    Err (HTTPException 500 (StrOf (HTTPException 400 (Msg "No frames to convert")))).
Proof.
  intros Hz [rows Hrows]. unfold convert_to_parquet.
  pose proof (convert_loop_length _ _ Hrows) as Hlen.
  rewrite Hrows. destruct rows; [done | simpl in Hlen; lia].
Qed.

(** C10. For a batch with at least one frame whose rows project and whose
    table pyarrow builds and writes, the response of [convert_to_parquet] is
    exactly [{success: true, parquet_base64: s, num_rows: n}] with [n] the
    number of frames of the batch and [s] the hexadecimal text of the Parquet
    bytes, two digits per byte; and the endpoint returns no other response. *)
Theorem convert_response_shape (eps : list Episode) :
  (forall rows table bytes,
     0 < sum_frames eps ->
     convert_loop eps = Ok rows ->
     convert_table rows = Ok table ->
     pq_write_table table = Ok bytes ->
     convert_to_parquet eps =
       Ok {| conv_success := true; parquet_base64 := hex bytes;
             conv_num_rows := sum_frames eps |} /\
     String.length (hex bytes) = 2 * length bytes) /\
  (forall response,
     convert_to_parquet eps = Ok response ->
     exists rows table bytes,
       convert_loop eps = Ok rows /\ convert_table rows = Ok table /\
       pq_write_table table = Ok bytes /\ 0 < sum_frames eps /\
       response = {| conv_success := true; parquet_base64 := hex bytes;
                     conv_num_rows := sum_frames eps |}).
Proof.
  split.
  - intros rows table bytes Hpos Hrows Htable Hbytes. split; [|apply hex_length].
    unfold convert_to_parquet.
    pose proof (convert_loop_length _ _ Hrows) as Hlen.
    rewrite Hrows. simpl. destruct rows as [|row rows]; [simpl in Hlen; lia|].
    rewrite Htable. simpl. rewrite Hbytes. simpl. by rewrite <- Hlen.
  - intros response. unfold convert_to_parquet, try_except.
    destruct (convert_loop eps) as [rows|] eqn:Hrows; simpl; [|discriminate].
    pose proof (convert_loop_length _ _ Hrows) as Hlen.
    destruct rows as [|row rows]; [discriminate|].
    destruct (convert_table (row :: rows)) as [table|] eqn:Htable; simpl; [|discriminate].
    destruct (pq_write_table table) as [bytes|] eqn:Hbytes; simpl; [|discriminate].
    intros [= <-]. exists (row :: rows), table, bytes.
    repeat (split; [done|]). split; [simpl in Hlen; lia|]. by rewrite <- Hlen.
Qed.

End Buffer.

Lemma convert_response_shape_witness :
  @convert_to_parquet test_runtime [cube_episode] =
    Ok {| conv_success := true; parquet_base64 := "50415231"; conv_num_rows := 3 |}.
Proof.
  assert (Hrun : is_ok (rows ← convert_loop [cube_episode];
                        table ← @convert_table test_runtime rows;
                        @pq_write_table test_runtime table) = true)
    by (vm_compute; reflexivity).
  destruct (convert_loop [cube_episode]) as [rows|] eqn:Hrows; [|discriminate].
  simpl in Hrun.
  destruct (@convert_table test_runtime rows) as [table|] eqn:Htable; [|discriminate].
  simpl in Hrun.
  destruct (proj1 (@convert_response_shape test_runtime [cube_episode])
              rows table ["P"; "A"; "R"; "1"]%byte) as [H _];
    [vm_compute; lia | exact Hrows | exact Htable | reflexivity |].
  rewrite H. vm_compute. reflexivity.
Defined.

(* ===================================================================== *)
(** ** The task dictionary *)
(* ===================================================================== *)

Definition is_str (v : json) : Prop := exists s, v = JStr s.

Lemma existsb_py_eqb_str s (l : list json) :
  Forall is_str l -> existsb (py_eqb (JStr s)) l = true <-> JStr s ∈ l.
Proof.
  induction 1 as [|x l [t ->] _ IH]; simpl.
  - split; [discriminate | by intros ?%elem_of_nil].
  - rewrite orb_true_iff, IH, elem_of_cons.
    split; (intros [H|H]; [left | by right]).
    + by apply String.eqb_eq in H as ->.
    + injection H as ->. apply String.eqb_refl.
Qed.

(** Adding a string to a set of strings. *)
Lemma set_add_str s (l : list json) :
  NoDup l -> Forall is_str l ->
  exists l', set_add (JStr s) l = Ok l' /\ NoDup l' /\ Forall is_str l' /\
             forall t, t ∈ l' <-> t ∈ l \/ t = JStr s.
Proof.
  intros Hnd Hstr. unfold set_add. simpl.
  destruct (existsb (py_eqb (JStr s)) l) eqn:E.
  - apply existsb_py_eqb_str in E; [|done].
    exists l. repeat (split; [done|]). intros t. split; [by left|].
    by intros [?| ->].
  - exists (l ++ [JStr s]). split; [done|].
    assert (Hnot : JStr s ∉ l).
    { intros Hin. apply existsb_py_eqb_str in Hin; [congruence | done]. }
    split; [|split].
    + apply NoDup_app. split; [done|]. split; [|apply NoDup_singleton].
      intros x Hx ->%list_elem_of_singleton. done.
    + apply Forall_app. split; [done|]. apply Forall_singleton. by exists s.
    + intros t. rewrite elem_of_app, list_elem_of_singleton. done.
Qed.

Lemma tasks_loop_str eps : forall (s0 s' : list json),
  foldM (fun s ep => set_add (episode_task ep) s) s0 eps = Ok s' ->
  Forall (fun ep => is_str (episode_task ep)) eps ->
  NoDup s0 -> Forall is_str s0 ->
  NoDup s' /\ Forall is_str s' /\
  forall t, t ∈ s' <-> t ∈ s0 \/ exists ep, ep ∈ eps /\ episode_task ep = t.
Proof.
  induction eps as [|ep eps IH]; intros s0 s' H Heps Hnd Hstr.
  - injection H as <-. repeat (split; [done|]). intros t. split; [by left|].
    intros [?|(ep & Hin & _)]; [done | by apply elem_of_nil in Hin].
  - rewrite foldM_cons in H. apply Forall_cons in Heps as [[x Hx] Heps].
    destruct (set_add_str x s0 Hnd Hstr) as (s1 & Hadd & Hnd1 & Hstr1 & Hmem1).
    rewrite Hx, Hadd in H. simpl in H.
    destruct (IH _ _ H Heps Hnd1 Hstr1) as (Hnd' & Hstr' & Hmem').
    repeat (split; [done|]). intros t. rewrite Hmem', Hmem1. split.
    + intros [[?| ->]|(ep' & Hin & Ht)].
      * by left.
      * right. exists ep. split; [apply list_elem_of_here | done].
      * right. exists ep'. split; [by apply list_elem_of_further | done].
    + intros [?|(ep' & Hin & Ht)]; [by left; left|].
      apply elem_of_cons in Hin as [->|Hin].
      * left. right. congruence.
      * right. eauto.
Qed.

Lemma enumerate_from_fst {A} i (l : list A) :
  map fst (enumerate_from i l) = seq i (length l).
Proof. revert i. induction l; intros i; simpl; [done | by rewrite IHl]. Qed.

Lemma enumerate_from_snd {A} i (l : list A) : map snd (enumerate_from i l) = l.
Proof. revert i. induction l; intros i; simpl; [done | by rewrite IHl]. Qed.

Section Tasks.
Context `{RT : Runtime}.

Lemma make_tasks_indices ts :
  map te_task_index (make_tasks ts) = seq 0 (length (make_tasks ts)).
Proof.
  unfold make_tasks, enumerate. rewrite length_map, enumerate_from_length, map_map.
  rewrite <- (enumerate_from_fst 0 (set_iter ts)).
  apply map_ext. by intros [? ?].
Qed.

Lemma make_tasks_texts ts : map te_task (make_tasks ts) = set_iter ts.
Proof.
  unfold make_tasks, enumerate. rewrite map_map.
  rewrite <- (enumerate_from_snd 0 (set_iter ts)) at 2.
  apply map_ext. by intros [? ?].
Qed.

(** C8. The task of an episode is its [languageInstruction] when the
    metadata has one and ["manipulation task"] otherwise.  For a batch whose
    tasks are strings, [tasks.jsonl] has exactly one entry per distinct task
    string, and its indices are 0, 1, 2, ... in file order, whatever order the
    set is iterated in. *)
Theorem task_dictionary_dense (request : UploadRequest) (repo_id : string)
    (bundle : Bundle) :
  build_dataset request repo_id = Ok bundle ->
  Forall (fun ep => is_str (episode_task ep)) (episodes request) ->
  (forall ep,
     episode_task ep = match metadata ep !! "languageInstruction" with
                       | Some text => text
                       | None => JStr "manipulation task"
                       end) /\
  map te_task_index (tasks_jsonl bundle) = seq 0 (length (tasks_jsonl bundle)) /\
  NoDup (map te_task (tasks_jsonl bundle)) /\
  (forall task,
     task ∈ map te_task (tasks_jsonl bundle) <->
     exists ep, ep ∈ episodes request /\ episode_task ep = task).
Proof.
  intros (st & _ & _ & Hloop & _ & _ & _ & _ & _ & ->)%build_dataset_inv Hstr.
  split; [|split; [|split]].
  - intros ep. unfold episode_task, dict_get. by destruct (_ !! _).
  - apply make_tasks_indices.
  - rewrite make_tasks_texts, set_iter_perm.
    apply upload_loop_inv in Hloop as (_ & _ & Htasks & _ & _).
    by eapply (tasks_loop_str _ [] _ Htasks Hstr); [apply NoDup_nil_2 | apply Forall_nil_2].
  - intros task. rewrite make_tasks_texts, set_iter_perm.
    apply upload_loop_inv in Hloop as (_ & _ & Htasks & _ & _).
    destruct (tasks_loop_str _ [] _ Htasks Hstr (NoDup_nil_2) (Forall_nil_2 _))
      as (_ & _ & Hmem).
    rewrite Hmem. split; [|by right].
    by intros [?%elem_of_nil|?].
Qed.

End Tasks.

(** Three episodes, two of them with the same instruction: two entries,
    numbered 0 and 1 (the test runtime iterates the set newest first). *)
Lemma task_dictionary_dense_witness :
  exists bundle,
    @build_dataset test_runtime
      (request_of [cube_episode; target_episode; cube_episode]) "alice/cubes" = Ok bundle /\
    tasks_jsonl bundle =
      [ {| te_task_index := 0; te_task := JStr "manipulation task" |};
        {| te_task_index := 1; te_task := JStr "pick up the cube" |} ] /\
    NoDup (map te_task (tasks_jsonl bundle)).
Proof.
  eexists. split; [vm_compute; reflexivity|]. split; [reflexivity|].
  eapply (@task_dictionary_dense test_runtime
            (request_of [cube_episode; target_episode; cube_episode]) "alice/cubes").
  - vm_compute. reflexivity.
  - repeat constructor; eexists; vm_compute; reflexivity.
Defined.

(* ===================================================================== *)
(** ** Directory mode against buffer mode *)
(* ===================================================================== *)

(** The fields on which the rows of the two modes agree. *)
Definition rows_agree (r1 r2 : gmap string json) : Prop :=
  r1 !! "episode_index" = r2 !! "episode_index" /\
  r1 !! "frame_index" = r2 !! "frame_index" /\
  r1 !! "timestamp" = r2 !! "timestamp" /\
  r1 !! "observation.state" = r2 !! "observation.state".

Lemma project_rows_agree ep_idx frame_idx frame r1 r2 :
  project_row_upload ep_idx frame_idx frame = Ok r1 ->
  project_row_convert ep_idx frame_idx frame = Ok r2 ->
  rows_agree r1 r2.
Proof.
  intros H1 H2. unfold rows_agree.
  rewrite (project_row_upload_state _ _ _ _ H1), (project_row_convert_state _ _ _ _ H2).
  apply project_row_upload_base in H1 as (-> & -> & -> & _).
  by apply project_row_convert_base in H2 as (-> & -> & -> & _).
Qed.

Lemma mapR_Forall2_both {A B C} (f : A -> result B) (g : A -> result C)
    (R : B -> C -> Prop) l ys zs :
  (forall x y z, f x = Ok y -> g x = Ok z -> R y z) ->
  mapR f l = Ok ys -> mapR g l = Ok zs -> Forall2 R ys zs.
Proof.
  intros HR. revert ys zs. induction l as [|x l IH]; intros ys zs Hf Hg.
  - injection Hf as <-. injection Hg as <-. constructor.
  - rewrite mapR_cons in Hf. rewrite mapR_cons in Hg. inv_binds. subst ys zs.
    constructor; [by eapply HR | by apply IH].
Qed.

Lemma Forall2_concat {A B} (R : A -> B -> Prop) yss zss :
  Forall2 (Forall2 R) yss zss -> Forall2 R (concat yss) (concat zss).
Proof.
  induction 1; simpl; [constructor | by apply Forall2_app].
Qed.

(** The rows of the two modes pair up, in order, and agree on the base
    fields and on the state. *)
Lemma loops_agree eps st rows :
  upload_loop eps = Ok st -> convert_loop eps = Ok rows ->
  Forall2 rows_agree (all_rows st) rows.
Proof.
  intros (rowss & Hup & _ & -> & _)%upload_loop_inv Hcv.
  rewrite convert_loop_eq in Hcv. inv_binds. subst rows.
  apply Forall2_concat.
  eapply (mapR_Forall2_both episode_rows episode_rows_convert); [|done..].
  intros ep ys zs Hys Hzs.
  eapply (mapR_Forall2_both _ _ rows_agree); [|exact Hys|exact Hzs].
  intros [k fr] r1 r2. apply project_rows_agree.
Qed.

Definition base_names : list string :=
  ["episode_index"; "frame_index"; "timestamp"; "task_index"].

Definition convert_names : list string :=
  ["episode_index"; "frame_index"; "timestamp"].

Section Modes.
Context `{RT : Runtime}.

Lemma encode_table_names rows t :
  encode_table rows = Ok (Some t) ->
  exists more, column_names t = base_names ++ more.
Proof.
  intros (sample_row & rest & schema_fields & _ & Hsch & Hcols)%encode_table_inv.
  destruct (infer_schema_base _ _ Hsch) as (more & ->).
  exists (more.*1). unfold column_names.
  assert (Hnames : map fst (table_columns t) = (base_schema ++ more).*1).
  { clear Hsch. induction Hcols as [|f c fs cs [Hn _] _ IH]; [done|].
    simpl. by rewrite Hn, IH. }
  rewrite Hnames. by rewrite fmap_app.
Qed.

Lemma pa_table_pydict_inv columns t :
  pa_table_pydict columns = Ok t ->
  table_columns t = map (fun c => (c.1, InferredArray c.2)) columns.
Proof.
  unfold pa_table_pydict. intros H. inv_binds.
  apply pa_table_inv in H. rewrite H. clear H.
  revert a E. induction columns as [|[name vals] columns IH]; intros arrays H.
  - by injection H as <-.
  - rewrite mapR_cons in H. inv_binds. subst arrays.
    destruct (pa_infer vals); [|discriminate]. injection E as <-.
    simpl. f_equal. by apply IH.
Qed.

(** The table of buffer mode: its three base columns, then the state and
    the action when the first row has them; never a task index. *)
Lemma convert_table_inv rows t :
  convert_table rows = Ok t ->
  num_rows t = length rows /\
  exists more,
    column_names t = convert_names ++ more /\ "task_index" ∉ column_names t.
Proof.
  unfold convert_table, convert_columns. intros H. inv_binds.
  apply pa_table_pydict_inv in H. unfold column_names, num_rows. rewrite H.
  subst a. apply mapR_length in E0.
  destruct rows as [|r0 rest]; simpl;
    repeat match goal with
    | |- context [bool_decide ?P] => destruct (bool_decide P); simpl
    end;
    (split; [done|]); eexists; (split; [reflexivity|]);
    apply (bool_decide_unpack _); by vm_compute.
Qed.

(** C2, as the code has it.  On every batch for which both modes build
    a table, the two tables have the same number of rows, the rows they are
    built from pair up in order and agree on [episode_index], [frame_index],
    [timestamp] and [observation.state], and both tables start with the
    columns [episode_index], [frame_index], [timestamp]; directory mode then
    has a [task_index] column, which buffer mode never has, so the column
    sets are not the same. *)
Theorem modes_share_base_columns (request : UploadRequest) (t1 t2 : Table) :
  upload_table request = Ok (Some t1) ->
  convert_episodes_table (episodes request) = Ok t2 ->
  num_rows t1 = num_rows t2 /\
  (exists st rows,
     upload_loop (episodes request) = Ok st /\
     convert_loop (episodes request) = Ok rows /\
     Forall2 rows_agree (all_rows st) rows) /\
  (exists more, column_names t1 =
                  ["episode_index"; "frame_index"; "timestamp"; "task_index"] ++ more) /\
  (exists more, column_names t2 = ["episode_index"; "frame_index"; "timestamp"] ++ more) /\
  ("task_index" ∉ column_names t2) /\
  column_names t1 <> column_names t2.
Proof.
  unfold upload_table, convert_episodes_table. intros H1 H2. inv_binds.
  rename a0 into st, a into rows.
  pose proof (loops_agree _ _ _ E0 E) as Hagree.
  destruct (encode_table_rows _ _ H1) as [Hn1 _].
  destruct (encode_table_names _ _ H1) as (more1 & Hnames1).
  destruct (convert_table_inv _ _ H2) as (Hn2 & more2 & Hnames2 & Hno).
  split; [|split; [|split; [|split; [|split]]]].
  - rewrite Hn1, Hn2. by eapply Forall2_length.
  - by exists st, rows.
  - by exists more1.
  - by exists more2.
  - done.
  - intros Heq. apply Hno. rewrite <- Heq, Hnames1.
    apply elem_of_app. left. apply (bool_decide_unpack _). by vm_compute.
Qed.

End Modes.

Lemma modes_share_base_columns_witness :
  exists t1 t2,
    @upload_table test_runtime (request_of [cube_episode]) = Ok (Some t1) /\
    @convert_episodes_table test_runtime [cube_episode] = Ok t2 /\
    num_rows t1 = num_rows t2.
Proof.
  eexists _, _. split; [vm_compute; reflexivity|]. split; [vm_compute; reflexivity|].
  eapply (@modes_share_base_columns test_runtime (request_of [cube_episode])).
  - vm_compute. reflexivity.
  - vm_compute. reflexivity.
Defined.

(** C2 as stated fails on the specification's own scenario: with the test
    runtime both modes build a table and the column sets differ, and under no
    runtime do the two tables have the same columns. *)
Lemma modes_encodings_differ :
  (exists t1 t2,
     @upload_table test_runtime (request_of [cube_episode]) = Ok (Some t1) /\
     @convert_episodes_table test_runtime [cube_episode] = Ok t2 /\
     column_names t1 =
       ["episode_index"; "frame_index"; "timestamp"; "task_index";
        "observation.state"; "action"] /\
     column_names t2 =
       ["episode_index"; "frame_index"; "timestamp"; "observation.state"; "action"]) /\
  ~ (exists (RT : Runtime) t1 t2,
       upload_table (request_of [cube_episode]) = Ok (Some t1) /\
       convert_episodes_table [cube_episode] = Ok t2 /\
       column_names t1 = column_names t2).
Proof.
  split.
  - eexists _, _. split; [vm_compute; reflexivity|]. split; [vm_compute; reflexivity|].
    by split.
  - intros (RT & t1 & t2 & H1 & H2 & Heq).
    unfold upload_table, convert_episodes_table in H1, H2. inv_binds.
    destruct (encode_table_names _ _ H1) as (more1 & Hnames1).
    destruct (convert_table_inv _ _ H2) as (_ & _ & _ & Hno).
    apply Hno. rewrite <- Heq, Hnames1.
    apply elem_of_app. left. apply (bool_decide_unpack _). by vm_compute.
Qed.

(* ===================================================================== *)
(** ** Vector widths *)
(* ===================================================================== *)

(** A row whose fields each convert on their own: integers in range, a
    timestamp that is a number or null, vectors (when present) that are lists
    of values [float] accepts.  For such rows only a width can go wrong. *)
Definition scalar_field (ty : DataType) (row : gmap string json) (key : string) : Prop :=
  exists v, row !! key = Some v /\ isinstance_list v = false /\
            is_ok (pa_convert ty v) = true.

Definition vector_field `{RT : Runtime} (row : gmap string json) (key : string) : Prop :=
  match row !! key with
  | None => True
  | Some (JList l) => is_ok (mapR py_float l) = true
  | Some _ => False
  end.

Definition plain_row `{RT : Runtime} (row : gmap string json) : Prop :=
  scalar_field int64 row "episode_index" /\
  scalar_field int64 row "frame_index" /\
  scalar_field float64 row "timestamp" /\
  scalar_field int64 row "task_index" /\
  vector_field row "observation.state" /\
  vector_field row "action".

Definition vector_key (key : string) : Prop :=
  key = "observation.state" \/ key = "action".

(** No call of the hub uploads a folder. *)
Definition no_upload (calls : list HubCall) : Prop :=
  forall repo_id folder, UploadFolder repo_id folder ∉ calls.

Section Widths.
Context `{RT : Runtime}.

Lemma column_value_list row key l x :
  row !! key = Some (JList l) -> column_value row key = Ok x ->
  exists fs, x = JList (map JFloat fs) /\ length fs = length l.
Proof.
  unfold column_value. intros -> H. inv_binds. subst x.
  exists a. split; [done|]. by eapply mapR_length.
Qed.

Lemma infer_schema_vector sample_row schema_fields key l :
  infer_schema sample_row = Ok schema_fields ->
  vector_key key -> sample_row !! key = Some (JList l) ->
  (key, list_ float32 (length l)) ∈ schema_fields.
Proof.
  intros (st & ac & -> & Hst & Hac)%infer_schema_inv [-> | ->] Hl;
    rewrite Hl in *.
  - destruct Hst as (n & [= <-] & ->).
    apply elem_of_app. right. apply elem_of_app. left. apply list_elem_of_here.
  - destruct Hac as (n & [= <-] & ->).
    apply elem_of_app. right. apply elem_of_app. right. apply list_elem_of_here.
Qed.

(** A table has no vector column with a cell of another width than the
    first row's. *)
Lemma encode_table_width rows t sample_row rest key l0 row l :
  encode_table rows = Ok (Some t) ->
  rows = sample_row :: rest ->
  vector_key key ->
  sample_row !! key = Some (JList l0) ->
  row ∈ rows -> row !! key = Some (JList l) ->
  length l = length l0.
Proof.
  intros (s & r & schema_fields & -> & Hsch & Hcols)%encode_table_inv
         [= <- <-] Hkey Hl0 Hrow Hl.
  pose proof (infer_schema_vector _ _ _ _ Hsch Hkey Hl0) as Hfield.
  apply list_elem_of_lookup in Hfield as [i Hi].
  destruct (Forall2_lookup_l _ _ _ _ _ Hcols Hi) as (named & _ & _ & col & Hcol & Harr).
  cbn [fst snd] in Hcol, Harr.
  destruct (mapR_elem_of _ _ _ _ Hcol Hrow) as (x & Hx & Hxin).
  destruct (column_value_list _ _ _ _ Hl Hx) as (fs & -> & Hfs).
  apply pa_array_inv in Harr as (vals & _ & Hvals).
  destruct (mapR_elem_of _ _ _ _ Hvals Hxin) as (y & Hy & _).
  simpl in Hy. rewrite length_map in Hy.
  destruct (Nat.eqb_spec (length fs) (length l0)) as [Heq|Hne]; [lia | discriminate].
Qed.

(** Part of C3: a batch with a vector of another width than the first
    row's has no table. *)
Lemma encode_table_mismatch rows sample_row rest key l0 row l :
  rows = sample_row :: rest ->
  vector_key key ->
  sample_row !! key = Some (JList l0) ->
  row ∈ rest -> row !! key = Some (JList l) ->
  length l <> length l0 ->
  exists e, encode_table rows = Err e.
Proof.
  intros -> Hkey Hl0 Hrow Hl Hne.
  destruct (encode_table (sample_row :: rest)) as [topt|e] eqn:Henc; [|eauto].
  destruct (encode_table_nonempty _ _ _ Henc) as (t & ->).
  destruct Hne. eapply encode_table_width; [done..| |done].
  by apply list_elem_of_further.
Qed.

Lemma build_dataset_encode_error request repo_id st e :
  upload_loop (episodes request) = Ok st ->
  encode_table (all_rows st) = Err e ->
  build_dataset request repo_id = Err e.
Proof. unfold build_dataset. intros -> Henc. simpl. by rewrite Henc. Qed.

(** When the bundle cannot be built, nothing is uploaded and the endpoint
    fails. *)
Lemma upload_dataset_build_error hub request :
  (forall repo_id, exists e, build_dataset request repo_id = Err e) ->
  (exists e, (upload_dataset hub request).2 = Err e) /\
  no_upload (upload_dataset hub request).1.
Proof.
  intros Hbuild. unfold upload_dataset, no_upload.
  destruct (whoami hub (hfToken request)) as [username|e]; simpl.
  - destruct (create_repo hub _ (isPrivate request)) as [[]|e]; simpl.
    + destruct (Hbuild (username +:+ "/" +:+ repoName request)) as (e & ->). simpl.
      split; [eauto|]. intros repo_id folder [=]%list_elem_of_singleton.
    + split; [eauto|]. intros repo_id folder [=]%list_elem_of_singleton.
  - split; [eauto|]. intros repo_id folder ?%elem_of_nil. done.
Qed.

End Widths.

(** Every exception a computation can raise is one of [E]. *)
Definition only_errors {A} (E : exn -> Prop) (r : result A) : Prop :=
  match r with
  | Ok _ => True
  | Err e => E e
  end.

(** The exception of a vector wider or narrower than the first row's. *)
Definition width_error (sample_row : gmap string json) (e : exn) : Prop :=
  exists key l0 k,
    vector_key key /\ sample_row !! key = Some (JList l0) /\
    k <> length l0 /\ e = ArrowInvalid (LengthMismatch (length l0) k).

Lemma mapR_only_errors {A B} (E : exn -> Prop) (f : A -> result B) l :
  Forall (fun x => only_errors E (f x)) l -> only_errors E (mapR f l).
Proof.
  induction 1 as [|x l Hx _ IH]; [done|].
  rewrite mapR_cons. destruct (f x); [|done]. simpl.
  by destruct (mapR f l).
Qed.

Lemma mapR_total {A B} (f : A -> result B) l :
  Forall (fun x => is_ok (f x) = true) l -> exists ys, mapR f l = Ok ys.
Proof.
  induction 1 as [|x l Hx _ [ys IH]]; [by exists []|].
  rewrite mapR_cons. destruct (f x) as [y|]; [|discriminate]. simpl.
  rewrite IH. simpl. eauto.
Qed.

Section PlainRows.
Context `{RT : Runtime}.

Lemma column_value_scalar ty row key :
  scalar_field ty row key ->
  exists v, column_value row key = Ok v /\ is_ok (pa_convert ty v) = true.
Proof.
  intros (v & Hl & Hnl & Hok). exists v. split; [|done].
  unfold column_value. rewrite Hl. by destruct v.
Qed.

Lemma column_value_vector row key :
  vector_field row key ->
  column_value row key = Ok JNull \/
  exists l fs, row !! key = Some (JList l) /\ length fs = length l /\
               column_value row key = Ok (JList (map JFloat fs)).
Proof.
  unfold vector_field, column_value.
  destruct (row !! key) as [[]|]; try done; [|by left].
  destruct (mapR py_float l) as [fs|] eqn:E; [|discriminate]. intros _.
  right. exists l, fs. split; [done|]. split; [by eapply mapR_length | done].
Qed.

Lemma plain_row_column_value row name :
  plain_row row -> name ∈ base_names ++ ["observation.state"; "action"] ->
  exists x, column_value row name = Ok x.
Proof.
  intros (He & Hf & Ht & Hk & Hs & Ha) Hin.
  repeat (apply elem_of_cons in Hin as [->|Hin]);
    try (by apply elem_of_nil in Hin);
    try match goal with
        | H : scalar_field _ row ?k |- exists x, column_value row ?k = Ok x =>
            by destruct (column_value_scalar _ _ _ H) as (v & ? & _); eauto
        end.
  - destruct (column_value_vector _ _ Hs) as [?|(? & ? & _ & _ & ?)]; eauto.
  - destruct (column_value_vector _ _ Ha) as [?|(? & ? & _ & _ & ?)]; eauto.
Qed.

Lemma infer_schema_plain sample_row :
  plain_row sample_row -> exists schema_fields, infer_schema sample_row = Ok schema_fields.
Proof.
  intros (_ & _ & _ & _ & Hs & Ha). unfold infer_schema, vector_field in *.
  destruct (sample_row !! "observation.state") as [[]|]; try done;
    destruct (sample_row !! "action") as [[]|]; try done; simpl; eauto.
Qed.

Lemma infer_schema_names sample_row schema_fields name :
  infer_schema sample_row = Ok schema_fields -> name ∈ schema_fields.*1 ->
  name ∈ base_names ++ ["observation.state"; "action"].
Proof.
  intros (st & ac & -> & Hst & Hac)%infer_schema_inv.
  rewrite !fmap_app, !elem_of_app. intros [Hin|[Hin|Hin]]; [left; exact Hin|..]; right.
  - destruct (sample_row !! "observation.state");
      [|subst; by apply elem_of_nil in Hin].
    destruct Hst as (n & _ & ->). apply list_elem_of_singleton in Hin as ->.
    apply list_elem_of_here.
  - destruct (sample_row !! "action"); [|subst; by apply elem_of_nil in Hin].
    destruct Hac as (n & _ & ->). apply list_elem_of_singleton in Hin as ->.
    apply list_elem_of_further, list_elem_of_here.
Qed.

Lemma fill_row_total row (fields : list (string * DataType)) :
  Forall (fun field => exists x, column_value row field.1 = Ok x) fields ->
  forall cols : gmap string (list json),
  exists cols',
    foldM
      (fun (columns : gmap string (list json)) '(field_name, _) =>
         x ← column_value row field_name;
         Ok (alter (fun col => col ++ [x]) field_name columns))
      cols fields = Ok cols'.
Proof.
  induction 1 as [|[name ty] fields [x Hx] _ IH]; intros cols; [by eexists|].
  rewrite foldM_cons. simpl in Hx. rewrite Hx. simpl. apply IH.
Qed.

(** The columns loop raises nothing on rows whose fields all convert. *)
Lemma fill_columns_total schema_fields rows :
  Forall (fun row =>
            Forall (fun field => exists x, column_value row field.1 = Ok x)
                   schema_fields) rows ->
  exists cols, fill_columns schema_fields rows = Ok cols.
Proof.
  unfold fill_columns. intros H.
  generalize (list_to_map (map (fun field : string * DataType =>
    (field.1, @nil json)) schema_fields) : gmap string (list json)).
  induction H as [|row rows Hrow _ IH]; intros cols; [by eexists|].
  rewrite foldM_cons.
  destruct (fill_row_total _ _ Hrow cols) as (cols' & ->). simpl. apply IH.
Qed.

Lemma pa_convert_floats (fs : list float) :
  mapR (pa_convert float32) (map JFloat fs) = Ok (map (fun f => AFloat (to_float32 f)) fs).
Proof.
  induction fs as [|f fs IH]; [done|].
  simpl map. rewrite mapR_cons, IH. done.
Qed.

(** A cell of a vector column converts, or has another width. *)
Lemma pa_convert_vector_cell (W : nat) (x : json) :
  x = JNull \/ (exists fs, x = JList (map JFloat fs)) ->
  match pa_convert (list_ float32 W) x with
  | Ok _ => True
  | Err e => exists k, k <> W /\ e = ArrowInvalid (LengthMismatch W k)
  end.
Proof.
  intros [->|(fs & ->)]; [done|]. simpl.
  destruct (Nat.eqb_spec (length (map JFloat fs)) W) as [Heq|Hne].
  - by rewrite pa_convert_floats.
  - eauto.
Qed.

End PlainRows.

Section WidthErrors.
Context `{RT : Runtime}.

(** On plain rows a cell either converts or has another width than the
    first row's vector. *)
Lemma plain_cell_errors sample_row schema_fields field row x :
  infer_schema sample_row = Ok schema_fields ->
  plain_row sample_row -> plain_row row ->
  field ∈ schema_fields ->
  column_value row field.1 = Ok x ->
  only_errors (width_error sample_row) (pa_convert field.2 x).
Proof.
  intros (st & ac & -> & Hst & Hac)%infer_schema_inv Hsample Hrow Hin Hx.
  destruct Hrow as (He & Hf & Ht & Hk & Hs & Ha).
  destruct Hsample as (_ & _ & _ & _ & Hs0 & Ha0).
  assert (Hscalar : forall ty key, scalar_field ty row key ->
            column_value row key = Ok x ->
            only_errors (width_error sample_row) (pa_convert ty x)).
  { intros ty key Hsc Hx'.
    destruct (column_value_scalar _ _ _ Hsc) as (v & Hv & Hok).
    rewrite Hv in Hx'. injection Hx' as <-.
    by destruct (pa_convert ty v). }
  assert (Hvector : forall key n v,
            vector_key key -> vector_field sample_row key ->
            sample_row !! key = Some v -> py_len v = Ok n ->
            vector_field row key -> column_value row key = Ok x ->
            only_errors (width_error sample_row) (pa_convert (list_ float32 n) x)).
  { intros key n v Hkey Hv0 Hl0 Hn Hv Hx'. unfold vector_field in Hv0.
    rewrite Hl0 in Hv0. destruct v as [| | | | |l0|]; try done.
    injection Hn as <-.
    pose proof (pa_convert_vector_cell (length l0) x) as Hcell.
    destruct (column_value_vector _ _ Hv) as [Hnull|(l' & fs & _ & _ & Hfs)].
    - rewrite Hnull in Hx'. injection Hx' as <-. done.
    - rewrite Hfs in Hx'. injection Hx' as <-.
      destruct (pa_convert (list_ float32 (length l0)) (JList (map JFloat fs)));
        [done|].
      destruct Hcell as (k & Hk' & ->); [eauto|].
      by exists key, l0, k. }
  rewrite !elem_of_app in Hin. destruct Hin as [Hin|[Hin|Hin]].
  - unfold base_schema in Hin.
    repeat (apply elem_of_cons in Hin as [->|Hin]);
      try (by apply elem_of_nil in Hin);
      cbn [fst snd] in *; (eapply Hscalar; [|exact Hx]); done.
  - destruct (sample_row !! "observation.state") as [v|] eqn:Hl0;
      [|subst; by apply elem_of_nil in Hin].
    destruct Hst as (n & Hn & ->). apply list_elem_of_singleton in Hin as ->.
    cbn [fst snd] in *. eapply (Hvector "observation.state"); try done. by left.
  - destruct (sample_row !! "action") as [v|] eqn:Hl0;
      [|subst; by apply elem_of_nil in Hin].
    destruct Hac as (n & Hn & ->). apply list_elem_of_singleton in Hin as ->.
    cbn [fst snd] in *. eapply (Hvector "action"); try done. by right.
Qed.

(** On plain rows the encoder raises nothing but a width mismatch. *)
Lemma encode_table_plain_errors sample_row rest :
  Forall plain_row (sample_row :: rest) ->
  only_errors (width_error sample_row) (encode_table (sample_row :: rest)).
Proof.
  intros Hplain. pose proof Hplain as Hplain'.
  apply Forall_cons in Hplain' as [Hsample _].
  destruct (infer_schema_plain _ Hsample) as (schema_fields & Hsch).
  pose proof (infer_schema_NoDup _ _ Hsch) as Hnd.
  destruct (fill_columns_total schema_fields (sample_row :: rest)) as (cols & Hfill).
  { eapply Forall_impl; [exact Hplain|]. intros row Hrow.
    apply Forall_forall. intros field Hin.
    apply plain_row_column_value; [done|].
    eapply infer_schema_names; [done|]. by apply list_elem_of_fmap_2. }
  assert (Hcols : forall field, field ∈ schema_fields ->
            exists col, mapR (fun row => column_value row field.1)
                          (sample_row :: rest) = Ok col /\
                        cols !! field.1 = Some col).
  { intros field Hin. eapply fill_columns_lookup; [done..|].
    by apply list_elem_of_fmap_2. }
  unfold encode_table. rewrite Hsch. simpl. rewrite Hfill. simpl.
  rewrite make_table_arrays.
  2:{ apply Forall_forall. intros field Hin.
      destruct (Hcols field Hin) as (col & Hcol & Hl).
      apply mapR_length in Hcol. destruct col as [|x col]; [discriminate|]. eauto. }
  match goal with |- context [mapR ?F schema_fields] => set (mk := F) end.
  assert (Hmk : Forall (fun field => only_errors (width_error sample_row) (mk field))
                  schema_fields).
  { apply Forall_forall. intros [name ty] Hin. unfold mk.
    destruct (Hcols _ Hin) as (col & Hcol & Hl). simpl in Hl. rewrite Hl. simpl.
    unfold pa_array.
    assert (Hcells : only_errors (width_error sample_row) (mapR (pa_convert ty) col)).
    { apply mapR_only_errors, Forall_forall. intros x Hx.
      apply mapR_Forall2 in Hcol.
      apply list_elem_of_lookup in Hx as [i Hi].
      destruct (Forall2_lookup_r _ _ _ _ _ Hcol Hi) as (row & Hrow & Hval).
      eapply (plain_cell_errors _ _ (name, ty)); [done..| |done|done].
      rewrite Forall_forall in Hplain. apply Hplain.
      by eapply list_elem_of_lookup_2. }
    by destruct (mapR (pa_convert ty) col). }
  apply mapR_only_errors in Hmk.
  destruct (mapR mk schema_fields) as [named|e] eqn:Hnamed; simpl; [|done].
  rewrite (pa_table_equal_lengths named (length (sample_row :: rest))); [done|].
  apply Forall_forall. intros [name arr] Hin.
  apply mapR_Forall2 in Hnamed.
  apply list_elem_of_lookup in Hin as [i Hi].
  destruct (Forall2_lookup_r _ _ _ _ _ Hnamed Hi) as ([name' ty] & Hf & Hval).
  unfold mk in Hval. inv_binds. subst arr name'.
  destruct (Hcols (name, ty)) as (col & Hcol & Hl); [by eapply list_elem_of_lookup_2|].
  simpl in Hl. rewrite Hl in E. simpl in E.
  cbn [fst snd] in *. rewrite (pa_array_len _ _ _ E). by eapply mapR_length.
Qed.

(** C3. In directory mode, when the first row has a list of width [W]
    for [observation.state] or [action] and a later row has a list of another
    width for that field, the compile fails: no table is built, no bundle is
    assembled, nothing is uploaded and the endpoint raises.  When moreover
    every field of every row converts on its own, the exception is the width
    mismatch pyarrow raises for a vector column (expected the first row's
    width, got another one), reported as a 500 with that exception as its
    detail.  A table that is built never holds a vector of another width than
    its source list ([encode_table_width]). *)
Theorem width_mismatch_fails (request : UploadRequest) (st : LoopState)
    (sample_row : gmap string json) (rest : list (gmap string json))
    (key : string) (l0 : list json) (row : gmap string json) (l : list json) :
  upload_loop (episodes request) = Ok st ->
  all_rows st = sample_row :: rest ->
  vector_key key ->
  sample_row !! key = Some (JList l0) ->
  row ∈ rest -> row !! key = Some (JList l) ->
  length l <> length l0 ->
  (exists e, upload_table request = Err e) /\
  (forall repo_id, exists e, build_dataset request repo_id = Err e) /\
  (forall hub, (exists e, (upload_dataset hub request).2 = Err e) /\
               no_upload (upload_dataset hub request).1) /\
  (Forall plain_row (all_rows st) ->
   exists e,
     width_error sample_row e /\
     upload_table request = Err e /\
     (forall repo_id, build_dataset request repo_id = Err e) /\
     (forall hub username,
        whoami hub (hfToken request) = Ok username ->
        create_repo hub (username +:+ "/" +:+ repoName request) (isPrivate request)
          = Ok () ->
        (upload_dataset hub request).2 = Err (HTTPException 500 (StrOf e)))).
Proof.
  intros Hloop Hrows Hkey Hl0 Hrow Hl Hne.
  destruct (encode_table_mismatch _ _ _ _ _ _ _ Hrows Hkey Hl0 Hrow Hl Hne)
    as (e & Henc).
  assert (Hbuild : forall repo_id, build_dataset request repo_id = Err e).
  { intros repo_id. by apply (build_dataset_encode_error _ _ st). }
  assert (Htable : upload_table request = Err e).
  { unfold upload_table. rewrite Hloop. done. }
  split; [eauto|]. split; [eauto|]. split.
  - intros hub. apply upload_dataset_build_error. eauto.
  - intros Hplain. exists e.
    pose proof (encode_table_plain_errors sample_row rest) as Herr.
    rewrite <- Hrows, Henc in Herr. specialize (Herr Hplain). simpl in Herr.
    split; [done|]. split; [done|]. split; [done|].
    intros hub username Hwho Hcreate. unfold upload_dataset.
    rewrite Hwho. simpl. rewrite Hcreate, Hbuild. simpl.
    destruct Herr as (? & ? & ? & _ & _ & _ & ->). done.
Qed.

End WidthErrors.

(** The first frame has six action values, the second five: pyarrow refuses
    the second, the repository is created and nothing is uploaded. *)
Lemma width_mismatch_fails_witness :
  @upload_table test_runtime (request_of [ragged_episode])
    = Err (ArrowInvalid (LengthMismatch 6 5)) /\
  (@upload_dataset test_runtime test_hub (request_of [ragged_episode])).2
    = Err (HTTPException 500 (StrOf (ArrowInvalid (LengthMismatch 6 5)))) /\
  no_upload (@upload_dataset test_runtime test_hub (request_of [ragged_episode])).1.
Proof.
  split; [vm_compute; reflexivity|]. split; [vm_compute; reflexivity|].
  destruct (is_ok_true (upload_loop (episodes (request_of [ragged_episode]))))
    as [st Hst]; [vm_compute; reflexivity|].
  assert (Hragged :
    match upload_loop (episodes (request_of [ragged_episode])) with
    | Ok st' =>
        match all_rows st' with
        | r0 :: r1 :: _ =>
            match r0 !! "action", r1 !! "action" with
            | Some (JList l0), Some (JList l) => negb (Nat.eqb (length l) (length l0))
            | _, _ => false
            end
        | _ => false
        end
    | Err _ => false
    end = true) by (vm_compute; reflexivity).
  rewrite Hst in Hragged.
  destruct (all_rows st) as [|r0 [|r1 rest]] eqn:Hrows; try discriminate.
  destruct (r0 !! "action") as [[| | | | |l0|]|] eqn:Hl0; try discriminate.
  destruct (r1 !! "action") as [[| | | | |l|]|] eqn:Hl; try discriminate.
  apply negb_true_iff, Nat.eqb_neq in Hragged.
  destruct (@width_mismatch_fails test_runtime (request_of [ragged_episode])
              st r0 (r1 :: rest) "action" l0 r1 l Hst Hrows)
    as (_ & _ & Hhub & _);
    [by right | exact Hl0 | apply list_elem_of_here | exact Hl | exact Hragged |].
  exact (proj2 (Hhub test_hub)).
Defined.

(* ===================================================================== *)
(** ** Further properties of the two endpoints *)
(* ===================================================================== *)







Lemma tasks_loop_hashable eps : forall (s0 s' : list json),
  foldM (fun s ep => set_add (episode_task ep) s) s0 eps = Ok s' ->
  Forall (fun ep => py_hashable (episode_task ep) = true) eps.
Proof.
  induction eps as [|ep eps IH]; intros s0 s' H; [constructor|].
  rewrite foldM_cons in H. inv_binds. constructor; [|by eapply IH].
  unfold set_add in E. by destruct (py_hashable (episode_task ep)).
Qed.

Lemma upload_episode_no_frames st ep :
  frames ep = [] -> py_hashable (episode_task ep) = true ->
  exists st', upload_episode st ep = Ok st' /\ all_rows st' = all_rows st.
Proof.
  intros Hfr Hh. unfold upload_episode, set_add. rewrite Hfr, Hh. simpl. eauto.
Qed.

Lemma upload_loop_no_frames eps :
  Forall (fun ep => frames ep = []) eps ->
  Forall (fun ep => py_hashable (episode_task ep) = true) eps ->
  forall st0, exists st,
    foldM upload_episode st0 eps = Ok st /\ all_rows st = all_rows st0.
Proof.
  induction 1 as [|ep eps Hfr _ IH]; intros Hhash st0; [by exists st0|].
  apply Forall_cons in Hhash as [Hh Hhash].
  rewrite foldM_cons.
  destruct (upload_episode_no_frames st0 ep Hfr Hh) as (st1 & -> & Hrows1). simpl.
  destruct (IH Hhash st1) as (st & -> & Hrows).
  exists st. split; [done | congruence].
Qed.

Lemma sum_frames_zero eps :
  sum_frames eps = 0 -> Forall (fun ep => frames ep = []) eps.
Proof.
  induction eps as [|ep eps IH]; simpl; [constructor|].
  intros H. constructor; [|apply IH; lia].
  destruct (frames ep); [done | simpl in H; lia].
Qed.

Section MoreBundles.
Context `{RT : Runtime}.

(** X2. [episodes.jsonl] has one line per episode, in input order: the
    episode's own index, the one-element list of its task text, and its
    number of frames. *)
Theorem episodes_jsonl_lines (request : UploadRequest) (repo_id : string)
    (bundle : Bundle) :
  build_dataset request repo_id = Ok bundle ->
  length (episodes_jsonl bundle) = length (episodes request) /\
  forall i ep,
    episodes request !! i = Some ep ->
    exists line,
      episodes_jsonl bundle !! i = Some line /\
      em_episode_index line = episodeIndex ep /\
      em_tasks line = [dict_get (metadata ep) "languageInstruction"
                                (JStr "manipulation task")] /\
      em_length line = length (frames ep).
Proof.
  intros (st & _ & _ & Hloop & _ & _ & _ & _ & -> & _)%build_dataset_inv.
  apply upload_loop_inv in Hloop as (_ & _ & _ & _ & ->).
  split; [by rewrite length_map|].
  intros i ep Hi. exists (episode_meta ep).
  split; [by rewrite list_lookup_fmap, Hi | done].
Qed.

(** X3. A task text that is a JSON list or object cannot enter the task
    set: the compile raises, whatever the frames are, and nothing is
    uploaded. *)
Theorem unhashable_task_fails (request : UploadRequest) (ep : Episode) (text : json) :
  ep ∈ episodes request ->
  metadata ep !! "languageInstruction" = Some text ->
  py_hashable text = false ->
  (forall repo_id, exists e, build_dataset request repo_id = Err e) /\
  (forall hub, (exists e, (upload_dataset hub request).2 = Err e) /\
               no_upload (upload_dataset hub request).1).
Proof.
  intros Hep Htext Hhash.
  assert (Hbuild : forall repo_id, exists e, build_dataset request repo_id = Err e).
  { intros repo_id.
    destruct (build_dataset request repo_id) as [bundle|e] eqn:Hb; [|eauto].
    apply build_dataset_inv in Hb as (st & _ & _ & Hloop & _).
    apply upload_loop_inv in Hloop as (_ & _ & Htasks & _).
    apply tasks_loop_hashable in Htasks. rewrite Forall_forall in Htasks.
    specialize (Htasks ep Hep). unfold episode_task, dict_get in Htasks.
    rewrite Htext in Htasks. simpl in Htasks. congruence. }
  split; [done|]. intros hub. by apply upload_dataset_build_error.
Qed.

(** X4. Directory mode accepts a batch without frames: no Parquet file is
    written, and [info.json] declares zero frames, the number of episodes and
    the default shape [[6]] for both vector features. *)
Theorem upload_without_frames (request : UploadRequest) (repo_id : string) :
  sum_frames (episodes request) = 0 ->
  Forall (fun ep => py_hashable (episode_task ep) = true) (episodes request) ->
  exists bundle,
    build_dataset request repo_id = Ok bundle /\
    data_parquet bundle = None /\
    total_frames (info_json bundle) = 0 /\
    total_episodes (info_json bundle) = length (episodes request) /\
    shape (feature_observation_state (info_json bundle)) = [6] /\
    shape (feature_action (info_json bundle)) = [6] /\
    length (episodes_jsonl bundle) = length (episodes request).
Proof.
  intros Hz Hhash.
  destruct (upload_loop_no_frames _ (sum_frames_zero _ Hz) Hhash
              {| all_rows := []; episode_metadata := []; tasks := [] |})
    as (st & Hloop & Hrows).
  fold (upload_loop (episodes request)) in Hloop. simpl in Hrows.
  unfold build_dataset. rewrite Hloop. simpl. rewrite Hrows. simpl.
  eexists. split; [reflexivity|]. simpl.
  apply upload_loop_inv in Hloop as (_ & _ & _ & _ & ->).
  by rewrite length_map.
Qed.

End MoreBundles.

(** An episode without frames. *)
Definition idle_episode : Episode :=
  {| episodeIndex := 4; frames := []; metadata := ∅ |}.

(** An episode whose instruction is a list. *)
Definition list_task_episode : Episode :=
  {| episodeIndex := 5; frames := [];
     metadata := <["languageInstruction" := JList [JStr "pick"; JStr "place"]]> ∅ |}.

Lemma episodes_jsonl_lines_witness :
  exists bundle,
    @build_dataset test_runtime (request_of [cube_episode; idle_episode]) "alice/cubes"
      = Ok bundle /\
    length (episodes_jsonl bundle) = 2.
Proof.
  destruct (is_ok_true (@build_dataset test_runtime
              (request_of [cube_episode; idle_episode]) "alice/cubes")) as [bundle Hb];
    [vm_compute; reflexivity|].
  exists bundle. split; [exact Hb|].
  exact (proj1 (@episodes_jsonl_lines test_runtime
                  (request_of [cube_episode; idle_episode]) "alice/cubes" bundle Hb)).
Defined.

Lemma unhashable_task_fails_witness :
  exists e, @build_dataset test_runtime
              (request_of [cube_episode; list_task_episode]) "alice/cubes" = Err e.
Proof.
  eapply (proj1 (@unhashable_task_fails test_runtime
                   (request_of [cube_episode; list_task_episode]) list_task_episode
                   (JList [JStr "pick"; JStr "place"]) _ _ _)).
  Unshelve.
  - apply list_elem_of_further, list_elem_of_here.
  - reflexivity.
  - reflexivity.
Defined.

Lemma upload_without_frames_witness :
  exists bundle,
    @build_dataset test_runtime (request_of [idle_episode; idle_episode]) "alice/cubes"
      = Ok bundle /\
    data_parquet bundle = None.
Proof.
  destruct (@upload_without_frames test_runtime
              (request_of [idle_episode; idle_episode]) "alice/cubes")
    as (bundle & Hb & Hd & _).
  - reflexivity.
  - repeat constructor.
  - by exists bundle.
Defined.

(* ===================================================================== *)
(** ** What the encoded table holds *)
(* ===================================================================== *)


Section Cells.
Context `{RT : Runtime}.

Lemma column_of_names rows (schema_fields : list (string * DataType)) cols :
  Forall2 (column_of rows) schema_fields cols -> map fst cols = schema_fields.*1.
Proof. induction 1 as [|f c fs cs [Hn _] _ IH]; [done|]. simpl. by rewrite Hn, IH. Qed.

(** Every cell of the table is the conversion of the value the column loop
    took from the row at that position. *)
Lemma encode_table_cell rows t name arr i row :
  encode_table rows = Ok (Some t) ->
  (name, arr) ∈ table_columns t -> rows !! i = Some row ->
  exists sample_row rest schema_fields ty vals x y,
    rows = sample_row :: rest /\ infer_schema sample_row = Ok schema_fields /\
    (name, ty) ∈ schema_fields /\ arr = TypedArray ty vals /\
    column_value row name = Ok x /\ pa_convert ty x = Ok y /\ vals !! i = Some y.
Proof.
  intros (sample_row & rest & schema_fields & -> & Hsch & Hcols)%encode_table_inv
         [j Hj]%list_elem_of_lookup Hi.
  destruct (Forall2_lookup_r _ _ _ _ _ Hcols Hj) as ([name' ty] & Hf & Hn & col & Hcol & Harr).
  cbn [fst snd] in *. subst name'.
  apply pa_array_inv in Harr as (vals & -> & Hvals).
  apply mapR_Forall2 in Hcol. apply mapR_Forall2 in Hvals.
  destruct (Forall2_lookup_l _ _ _ _ _ Hcol Hi) as (x & Hx & Hval).
  destruct (Forall2_lookup_l _ _ _ _ _ Hvals Hx) as (y & Hy & Hconv).
  exists sample_row, rest, schema_fields, ty, vals, x, y.
  repeat (split; [done|]). split; [by eapply list_elem_of_lookup_2 | done].
Qed.

Lemma encode_table_field rows t sample_row rest schema_fields name ty :
  encode_table rows = Ok (Some t) -> rows = sample_row :: rest ->
  infer_schema sample_row = Ok schema_fields -> (name, ty) ∈ schema_fields ->
  exists arr, (name, arr) ∈ table_columns t.
Proof.
  intros (s & r & schema' & -> & Hsch & Hcols)%encode_table_inv [= <- <-] Hsch'
         [j Hj]%list_elem_of_lookup.
  rewrite Hsch in Hsch'. injection Hsch' as <-.
  destruct (Forall2_lookup_l _ _ _ _ _ Hcols Hj) as ([name' arr] & Hc & Hn & _).
  cbn [fst snd] in Hn. subst name'. exists arr. by eapply list_elem_of_lookup_2.
Qed.


(** X5. The columns of the table are decided by the first row alone: the
    four base columns, then [observation.state] when the first row has that
    field, then [action] when the first row has it.  Images are never
    encoded, and a field the first row lacks is dropped from every row. *)
Theorem table_columns_from_first_row (sample_row : gmap string json)
    (rest : list (gmap string json)) (t : Table) :
  encode_table (sample_row :: rest) = Ok (Some t) ->
  column_names t =
    ["episode_index"; "frame_index"; "timestamp"; "task_index"]
      ++ (if bool_decide (is_Some (sample_row !! "observation.state"))
          then ["observation.state"] else [])
      ++ (if bool_decide (is_Some (sample_row !! "action")) then ["action"] else []) /\
  "observation.image" ∉ column_names t.
Proof.
  intros (s & r & schema_fields & [= <- <-] & Hsch & Hcols)%encode_table_inv.
  unfold column_names. rewrite (column_of_names _ _ _ Hcols).
  apply infer_schema_inv in Hsch as (st & ac & -> & Hst & Hac).
  destruct (sample_row !! "observation.state") as [v|];
    destruct (sample_row !! "action") as [w|];
    repeat match goal with
    | H : exists _, _ |- _ => destruct H as (? & _ & ->)
    | H : _ = [] |- _ => rewrite H
    end;
    (rewrite ?bool_decide_eq_true_2 by eauto);
    (rewrite ?bool_decide_eq_false_2 by (by intros [? ?]));
    (split; [reflexivity|]); apply (bool_decide_unpack _); by vm_compute.
Qed.



(** X8. A bundle is only built when the index of every episode that has a
    frame fits a signed 64-bit integer. *)
Theorem episode_index_fits_int64 (request : UploadRequest) (repo_id : string)
    (bundle : Bundle) (ep : Episode) :
  build_dataset request repo_id = Ok bundle ->
  ep ∈ episodes request -> frames ep <> [] ->
  (- 2 ^ 63 <= episodeIndex ep < 2 ^ 63)%Z.
Proof.
  intros (st & table & _ & Hloop & Henc & _)%build_dataset_inv Hep Hfr.
  destruct (frames ep) as [|frame frames'] eqn:Hframes; [done|].
  destruct (upload_loop_frame _ _ ep 0 frame Hloop Hep) as (row & Hrow & Hin);
    [by rewrite Hframes|].
  apply project_row_upload_base in Hrow as (Hidx & _).
  apply list_elem_of_lookup in Hin as [i Hi].
  destruct (all_rows st) as [|sample_row rest] eqn:Hrows; [by destruct i|].
  destruct (encode_table_nonempty _ _ _ Henc) as (t & ->).
  pose proof Henc as (s & r & schema_fields & [= <- <-] & Hsch & _)%encode_table_inv.
  destruct (infer_schema_base _ _ Hsch) as (more & ->).
  destruct (encode_table_field _ _ _ _ _ "episode_index" int64 Henc eq_refl Hsch)
    as (arr & Harr); [apply elem_of_app; left; apply list_elem_of_here|].
  destruct (encode_table_cell _ _ _ _ _ _ Henc Harr Hi)
    as (s' & r' & schema' & ty & vals & x & y & [= <- <-] & Hsch' & Hf & _ & Hx & Hy & _).
  rewrite Hsch in Hsch'. injection Hsch' as <-.
  assert (ty = int64) as ->.
  { pose proof (infer_schema_NoDup _ _ Hsch) as Hnd.
    apply list_elem_of_lookup in Hf as [j Hj].
    destruct j as [|j]; [by injection Hj as <-|].
    simpl in Hnd. apply NoDup_cons in Hnd as [Hnot _].
    destruct Hnot. simpl in Hj. apply list_elem_of_lookup_2 in Hj.
    by apply (list_elem_of_fmap_2 fst) in Hj. }
  unfold column_value in Hx. rewrite Hidx in Hx. injection Hx as <-.
  simpl in Hy.
  destruct (Z.leb_spec (- 2 ^ 63) (episodeIndex ep)); [|discriminate].
  destruct (Z.ltb_spec (episodeIndex ep) (2 ^ 63)); [lia | discriminate].
Qed.

End Cells.

(** An episode whose second frame has no action. *)
Definition partial_episode : Episode :=
  {| episodeIndex := 2;
     frames := [frame_of zeros6 zeros6;
                <["observation" := JDict (<["jointPositions" := zeros6]> ∅)]> ∅];
     metadata := ∅ |}.

(** An episode whose index is 2^63. *)
Definition huge_episode : Episode :=
  {| episodeIndex := 2 ^ 63; frames := [frame_of zeros6 zeros6]; metadata := ∅ |}.

Lemma table_columns_from_first_row_witness :
  exists st t,
    upload_loop [target_episode] = Ok st /\
    @encode_table test_runtime (all_rows st) = Ok (Some t) /\
    column_names t =
      ["episode_index"; "frame_index"; "timestamp"; "task_index";
       "observation.state"; "action"].
Proof.
  destruct (is_ok_true (upload_loop [target_episode])) as [st Hst];
    [vm_compute; reflexivity|].
  assert (Hcheck :
    match upload_loop [target_episode] with
    | Ok st =>
        match all_rows st with
        | row0 :: _ =>
            is_ok (@encode_table test_runtime (all_rows st))
            && bool_decide (is_Some (row0 !! "observation.state"))
            && bool_decide (is_Some (row0 !! "action"))
        | [] => false
        end
    | Err _ => false
    end = true) by (vm_compute; reflexivity).
  rewrite Hst in Hcheck.
  destruct (all_rows st) as [|row0 rest] eqn:Hrows; [discriminate|].
  apply andb_true_iff in Hcheck as [Hcheck Hac].
  apply andb_true_iff in Hcheck as [Henc Hst'].
  destruct (@encode_table test_runtime (row0 :: rest)) as [topt|] eqn:Ht; [|discriminate].
  destruct (encode_table_nonempty _ _ _ Ht) as (t & ->).
  exists st, t. split; [exact Hst|]. rewrite Hrows. split; [exact Ht|].
  rewrite (proj1 (@table_columns_from_first_row test_runtime row0 rest t Ht)).
  rewrite Hst', Hac. reflexivity.
Defined.



Lemma episode_index_fits_int64_witness :
  (- 2 ^ 63 <= episodeIndex cube_episode < 2 ^ 63)%Z.
Proof.
  destruct (is_ok_true (@build_dataset test_runtime
              (request_of [cube_episode]) "alice/cubes")) as [bundle Hb];
    [vm_compute; reflexivity|].
  eapply (@episode_index_fits_int64 test_runtime (request_of [cube_episode])
            "alice/cubes" bundle cube_episode Hb).
  - apply list_elem_of_here.
  - discriminate.
Defined.

(** The index 2^63 does not fit: the compile stops with pyarrow's overflow. *)
Example huge_index_overflows :
  @build_dataset test_runtime (request_of [huge_episode]) "alice/cubes" = Err OverflowError.
Proof. vm_compute. reflexivity. Qed.

(* ===================================================================== *)
(** ** What buffer mode returns *)
(* ===================================================================== *)

(** Decoding of lowercase hexadecimal text, two digits per byte. *)
Definition hex_value (c : ascii) : option N :=
  (fix find (digits : list ascii) (n : N) : option N :=
     match digits with
     | [] => None
     | d :: digits' => if Ascii.eqb c d then Some n else find digits' (N.succ n)
     end) (list_ascii_of_string "0123456789abcdef") 0%N.

Fixpoint unhex (s : string) : option (list byte) :=
  match s with
  | EmptyString => Some []
  | String hi (String lo s') =>
      match hex_value hi, hex_value lo, unhex s' with
      | Some h, Some l, Some bs =>
          match Byte.of_N (16 * h + l) with
          | Some b => Some (b :: bs)
          | None => None
          end
      | _, _, _ => None
      end
  | String _ EmptyString => None
  end.

Lemma unhex_hex bs : unhex (hex bs) = Some bs.
Proof.
  induction bs as [|b bs IH]; [done|].
  simpl hex. cbn [unhex]. fold unhex. rewrite IH.
  by destruct b.
Qed.

Lemma mapR_row_getitem key dflt rows col :
  mapR (row_getitem key) rows = Ok col ->
  col = map (fun r => dict_get r key dflt) rows.
Proof.
  revert col. induction rows as [|r rows IH]; intros col H.
  - by injection H as <-.
  - rewrite mapR_cons in H. inv_binds. subst col. simpl. f_equal; [|by apply IH].
    unfold row_getitem in E. unfold dict_get.
    destruct (r !! key); [by injection E as <- | discriminate].
Qed.

Section BufferCells.
Context `{RT : Runtime}.

(** X9. The table of buffer mode holds the projected values as they are:
    every column has one value per row, and the value of a row is the row's
    own field, or the empty list when the row lacks the field (a vector the
    first row has and a later row lacks).  Nothing is converted and no width
    is checked. *)
Theorem convert_table_cells (rows : list (gmap string json)) (t : Table)
    (name : string) (arr : Array) :
  convert_table rows = Ok t ->
  (name, arr) ∈ table_columns t ->
  arr = InferredArray (map (fun row => dict_get row name (JList [])) rows).
Proof.
  unfold convert_table, convert_columns. intros H Hin. inv_binds.
  apply pa_table_pydict_inv in H. rewrite H in Hin. clear H. subst a.
  apply (mapR_row_getitem _ (JList [])) in E0, E1, E2. subst a0 a1 a2.
  apply list_elem_of_fmap in Hin as ([name' vals] & [= -> ->] & Hin).
  cbn [fst snd]. f_equal.
  destruct rows as [|r0 rest];
    repeat match type of Hin with
    | context [bool_decide ?P] => destruct (bool_decide P)
    end;
    repeat (apply elem_of_cons in Hin as [[= -> ->]|Hin]; [reflexivity|]);
    by apply elem_of_nil in Hin.
Qed.

(** X10. The text returned as [parquet_base64] is the lowercase hexadecimal
    form of the bytes the Parquet writer produced for the table of the batch:
    decoding it gives exactly those bytes back. *)
Theorem convert_response_decodes (eps : list Episode) (response : ConvertResponse) :
  convert_to_parquet eps = Ok response ->
  exists rows table bytes,
    convert_loop eps = Ok rows /\ convert_table rows = Ok table /\
    pq_write_table table = Ok bytes /\
    unhex (parquet_base64 response) = Some bytes.
Proof.
  unfold convert_to_parquet, try_except.
  destruct (convert_loop eps) as [rows|] eqn:Hrows; simpl; [|discriminate].
  destruct rows as [|row rows]; [discriminate|].
  destruct (convert_table (row :: rows)) as [table|] eqn:Htable; simpl; [|discriminate].
  destruct (pq_write_table table) as [bytes|] eqn:Hbytes; simpl; [|discriminate].
  intros [= <-]. exists (row :: rows), table, bytes.
  repeat (split; [done|]). apply unhex_hex.
Qed.

End BufferCells.

Lemma convert_table_cells_witness :
  exists rows t arr,
    convert_loop [partial_episode] = Ok rows /\
    @convert_table test_runtime rows = Ok t /\
    ("action", arr) ∈ table_columns t /\
    arr = InferredArray (map (fun row => dict_get row "action" (JList [])) rows).
Proof.
  destruct (is_ok_true (convert_loop [partial_episode])) as [rows Hrows];
    [vm_compute; reflexivity|].
  assert (Hcheck :
    match convert_loop [partial_episode] with
    | Ok rows =>
        match @convert_table test_runtime rows with
        | Ok t => existsb (fun c => String.eqb c.1 "action") (table_columns t)
        | Err _ => false
        end
    | Err _ => false
    end = true) by (vm_compute; reflexivity).
  rewrite Hrows in Hcheck.
  destruct (@convert_table test_runtime rows) as [t|] eqn:Ht; [|discriminate].
  apply existsb_exists in Hcheck as ([name arr] & Hin & Hname).
  apply String.eqb_eq in Hname. simpl in Hname. subst name.
  apply list_elem_of_In in Hin.
  exists rows, t, arr. split; [exact Hrows|]. split; [exact Ht|]. split; [exact Hin|].
  exact (@convert_table_cells test_runtime rows t "action" arr Ht Hin).
Defined.

Lemma convert_response_decodes_witness :
  exists response bytes,
    @convert_to_parquet test_runtime [cube_episode] = Ok response /\
    unhex (parquet_base64 response) = Some bytes.
Proof.
  destruct (is_ok_true (@convert_to_parquet test_runtime [cube_episode]))
    as [response Hr]; [vm_compute; reflexivity|].
  destruct (@convert_response_decodes test_runtime [cube_episode] response Hr)
    as (rows & table & bytes & _ & _ & _ & Hdec).
  by exists response, bytes.
Defined.

(* ===================================================================== *)
(** ** The upload endpoint and the hub *)
(* ===================================================================== *)

Section Endpoint.
Context `{RT : Runtime}.



End Endpoint.




(* ===================================================================== *)
(** ** The shared examples *)
(* ===================================================================== *)

(** What a row must offer to become the example. *)
Definition row_gives (row : json) (example : SharedExampleOut) : Prop :=
  exists m, row = JDict m /\
    m !! "id" = Some (ex_id example) /\
    m !! "object_position" = Some (ex_objectPosition example) /\
    m !! "object_type" = Some (ex_objectType example) /\
    m !! "object_scale" = Some (ex_objectScale example) /\
    m !! "joint_sequence" = Some (ex_jointSequence example) /\
    ex_similarity example = 1%float.

Lemma example_of_row_gives row example :
  example_of_row row = Ok example -> row_gives row example.
Proof.
  unfold example_of_row. intros H. inv_binds. subst example.
  destruct row; try discriminate. simpl in *.
  repeat match goal with
  | H : match ?m !! ?k with Some _ => _ | None => _ end = Ok _ |- _ =>
      destruct (m !! k) eqn:?; [injection H as <- | discriminate H]
  end.
  exists m. by repeat split.
Qed.

(** X13. [get_all_examples] is all or nothing and keeps the database's
    order: without Supabase it returns the empty list; otherwise it returns
    one example per row of the query result, in order, each carrying the
    row's [id], [object_position], [object_type], [object_scale] and
    [joint_sequence] and the similarity 1.0; when the query raises or a row
    lacks one of these fields, the whole call fails with a 500 whose detail
    names that exception. *)
Theorem get_all_examples_all_or_nothing (query : Z -> result (list json)) (limit : Z) :
  get_all_examples None limit = Ok [] /\
  (forall examples,
     get_all_examples (Some query) limit = Ok examples ->
     exists data, query limit = Ok data /\ Forall2 row_gives data examples) /\
  (forall e,
     get_all_examples (Some query) limit = Err e ->
     exists e0, e = HTTPException 500 (Fmt "Failed to get examples: " e0) /\
       (query limit = Err e0 \/
        exists data row, query limit = Ok data /\ row ∈ data /\
                         example_of_row row = Err e0)).
Proof.
  split; [reflexivity|]. unfold get_all_examples, try_except.
  destruct (query limit) as [data|e0] eqn:Hq; simpl.
  - rewrite (foldM_append _ example_of_row)
      by (apply Forall_forall; intros row _ acc; reflexivity).
    destruct (mapR example_of_row data) as [examples|e0] eqn:Hmap; simpl.
    + split; [|discriminate]. intros ? [= <-]. exists data. split; [done|].
      apply mapR_Forall2 in Hmap.
      eapply Forall2_impl; [exact Hmap|]. apply example_of_row_gives.
    + split; [discriminate|]. intros e [= <-]. exists e0. split; [done|].
      right. exists data.
      assert (Hrow : exists row, row ∈ data /\ example_of_row row = Err e0).
      { clear Hq. revert Hmap. induction data as [|row data IH]; [discriminate|].
        rewrite mapR_cons.
        destruct (example_of_row row) as [ex|e1] eqn:Hrow; simpl.
        - destruct (mapR example_of_row data) as [exs|e1] eqn:Hrest; simpl;
            [discriminate|].
          intros [= <-]. destruct (IH eq_refl) as (row' & Hin & Herr).
          exists row'. split; [by apply list_elem_of_further | done].
        - intros [= <-]. exists row. split; [apply list_elem_of_here | done]. }
      destruct Hrow as (row & Hin & Herr). by exists row.
  - split; [discriminate|]. intros e [= <-]. exists e0. split; [done|]. by left.
Qed.

(** Two rows of the table, and a row without its joint sequence. *)
Definition example_row (id : string) : json :=
  JDict (<["id" := JStr id]>
        (<["object_position" := JList [JFloat 0.5; JInt 0; JFloat 0.25]]>
        (<["object_type" := JStr "cube"]>
        (<["object_scale" := JFloat 0.5]>
        (<["joint_sequence" := JList []]> ∅))))).

Definition broken_row : json :=
  JDict (<["id" := JStr "c"]> ∅).

Lemma get_all_examples_all_or_nothing_witness :
  (exists examples,
     get_all_examples (Some (fun _ => Ok [example_row "a"; example_row "b"])) 1000
       = Ok examples /\
     map ex_id examples = [JStr "a"; JStr "b"]) /\
  get_all_examples (Some (fun _ => Ok [example_row "a"; broken_row])) 1000
    = Err (HTTPException 500 (Fmt "Failed to get examples: " KeyError)).
Proof.
  split.
  - destruct (is_ok_true (get_all_examples
                (Some (fun _ => Ok [example_row "a"; example_row "b"])) 1000))
      as [examples Hex]; [vm_compute; reflexivity|].
    exists examples. split; [exact Hex|].
    destruct (proj1 (proj2 (get_all_examples_all_or_nothing
                (fun _ => Ok [example_row "a"; example_row "b"]) 1000)) examples Hex)
      as (data & [= <-] & Hrows).
    inversion Hrows as [|r1 e1 rs es (m1 & Hm1 & Hid1 & _) Hrest]; subst.
    inversion Hrest as [|r2 e2 rs' es' (m2 & Hm2 & Hid2 & _) Hnil]; subst.
    inversion Hnil; subst. simpl.
    injection Hm1 as <-. injection Hm2 as <-.
    match type of Hid1 with ?l = _ =>
      assert (H1 : l = Some (JStr "a")) by (vm_compute; reflexivity) end.
    match type of Hid2 with ?l = _ =>
      assert (H2 : l = Some (JStr "b")) by (vm_compute; reflexivity) end.
    rewrite H1 in Hid1. rewrite H2 in Hid2.
    injection Hid1 as <-. injection Hid2 as <-.
    reflexivity.
  - vm_compute. reflexivity.
Defined.

(* ===================================================================== *)
(** ** The Stripe webhook *)
(* ===================================================================== *)


Definition event_type_is (event : json) (name : string) : Prop :=
  exists type, py_getitem event "type" = Ok type /\ py_eqb type (JStr name) = true.


(** X14. The webhook does nothing for a request it has not verified: without
    a configured secret it answers 500 whatever was sent; a payload or
    signature [construct_event] rejects is answered 400; and whenever any
    request goes out to Stripe or to the database, the secret was set, the
    event passed the signature check, and it was one of the two handled
    event types. *)
Theorem webhook_acts_only_when_verified (b : Billing) (payload : string)
    (stripe_signature : option string) (calls : list WebhookCall) (answer : WebhookAnswer) :
  stripe_webhook b payload stripe_signature = (calls, answer) ->
  (secret_set b = None ->
     calls = [] /\
     answer = Raised (HTTPException 500 (Msg "Stripe webhook secret not configured"))) /\
  (forall secret e, secret_set b = Some secret ->
     construct_event b payload stripe_signature secret = InvalidPayload e ->
     calls = [] /\ answer = Raised (HTTPException 400 (Fmt "Invalid payload: " e))) /\
  (forall secret e, secret_set b = Some secret ->
     construct_event b payload stripe_signature secret = InvalidSignature e ->
     calls = [] /\ answer = Raised (HTTPException 400 (Fmt "Invalid signature: " e))) /\
  (calls <> [] ->
     exists secret event,
       STRIPE_WEBHOOK_SECRET b = Some secret /\ secret <> "" /\
       construct_event b payload stripe_signature secret = Verified event /\
       (event_type_is event "checkout.session.completed" \/
        event_type_is event "customer.subscription.deleted")).
Proof.
  unfold stripe_webhook. intros Hrun.
  destruct (secret_set b) as [secret|] eqn:Hs.
  2: { injection Hrun as <- <-. repeat split; try done. }
  assert (Hsecret : STRIPE_WEBHOOK_SECRET b = Some secret /\ secret <> "").
  { unfold secret_set in Hs. destruct (STRIPE_WEBHOOK_SECRET b) as [s|]; [|done].
    destruct (String.eqb s "") eqn:E; [done|]. injection Hs as ->.
    split; [done|]. by apply String.eqb_neq. }
  destruct (construct_event b payload stripe_signature secret) as [event|e|e|e] eqn:Hc.
  2-4: injection Hrun as <- <-.
  all: split; [done|].
  all: split; [intros s e' [= <-] He'; rewrite Hc in He'; by simplify_eq|].
  all: split; [intros s e' [= <-] He'; rewrite Hc in He'; by simplify_eq|].
  2-4: done.
  intros Hcalls. exists secret, event. destruct Hsecret. do 3 (split; [done|]).
  unfold handle_event, event_type_is in *.
  destruct (py_getitem event "type") as [type|] eqn:Ht; [|by injection Hrun as <- _].
  destruct (py_eqb type (JStr "checkout.session.completed")) eqn:E1; [left; eauto|].
  destruct (py_eqb type (JStr "customer.subscription.deleted")) eqn:E2; [right; eauto|].
  by injection Hrun as <- _.
Qed.



(** Test events and services: a deleted subscription, a completed checkout
    whose session has neither address, and a Stripe whose customer lookup
    fails. *)
Definition event_of (type : string) (object : gmap string json) : json :=
  JDict (<["type" := JStr type]>
        (<["data" := JDict (<["object" := JDict object]> ∅)]> ∅)).

Definition deleted_subscription : gmap string json :=
  <["id" := JStr "sub_1"]> (<["customer" := JStr "cus_1"]> ∅).


Definition test_billing : Billing := {|
  STRIPE_WEBHOOK_SECRET := Some "whsec_test";
  construct_event := fun payload signature _ =>
    match signature with
    | None => InvalidSignature ValueError
    | Some _ =>
        if String.eqb payload "deleted"
        then Verified (event_of "customer.subscription.deleted" deleted_subscription)
        else InvalidPayload ValueError
    end;
  retrieve_customer := fun _ => Ok (JDict (<["email" := JStr "ada@example.org"]> ∅));
  supabase_configured := true;
  update_profile := fun _ _ => Err (HubError "database unreachable");
|}.


Lemma webhook_acts_only_when_verified_witness :
  exists secret event,
    STRIPE_WEBHOOK_SECRET test_billing = Some secret /\ secret <> "" /\
    construct_event test_billing "deleted" (Some "t=1,v1=00") secret = Verified event /\
    (event_type_is event "checkout.session.completed" \/
     event_type_is event "customer.subscription.deleted").
Proof.
  destruct (stripe_webhook test_billing "deleted" (Some "t=1,v1=00"))
    as [calls answer] eqn:Hrun.
  assert (Hcheck : match (stripe_webhook test_billing "deleted" (Some "t=1,v1=00")).1 with
                   | [] => false | _ :: _ => true end = true)
    by (vm_compute; reflexivity).
  rewrite Hrun in Hcheck.
  apply (proj2 (proj2 (proj2
           (webhook_acts_only_when_verified _ _ _ calls answer Hrun)))).
  intros ->. discriminate Hcheck.
Defined.



(* ===================================================================== *)
(** ** The example statistics *)
(* ===================================================================== *)

Definition total_count (counts : list (json * Z)) : Z :=
  foldr Z.add 0%Z (map snd counts).

Lemma bump_total key counts :
  total_count (bump key counts) = (total_count counts + 1)%Z.
Proof.
  unfold total_count. induction counts as [|[k n] rest IH]; simpl; [lia|].
  destruct (py_eqb k key); simpl; lia.
Qed.

Lemma bump_positive key counts :
  Forall (fun kn => (1 <= kn.2)%Z) counts ->
  Forall (fun kn => (1 <= kn.2)%Z) (bump key counts).
Proof.
  induction 1 as [|[k n] rest Hn Hrest IH]; simpl.
  - by repeat constructor.
  - destruct (py_eqb k key); constructor; simpl in *;
      first [lia | assumption].
Qed.

Lemma count_rows_inv data : forall by_type counts,
  foldM count_row by_type data = Ok counts ->
  total_count counts = (total_count by_type + Z.of_nat (length data))%Z /\
  (Forall (fun kn => (1 <= kn.2)%Z) by_type ->
   Forall (fun kn => (1 <= kn.2)%Z) counts) /\
  Forall (fun row => exists obj_type,
            py_getitem row "object_type" = Ok obj_type /\
            py_hashable obj_type = true) data.
Proof.
  induction data as [|row data IH]; intros by_type counts.
  - simpl. intros [= <-]. split; [lia|]. split; [done | constructor].
  - rewrite foldM_cons. intros H.
    apply bind_Ok_inv in H as (by_type' & Hrow & H).
    destruct (IH _ _ H) as (Htotal & Hpos & Hrows).
    unfold count_row in Hrow.
    apply bind_Ok_inv in Hrow as (obj_type & Htype & Hrow).
    destruct (py_hashable obj_type) eqn:Hhash; [|discriminate].
    injection Hrow as <-.
    split; [rewrite Htotal, bump_total; simpl length; lia|].
    split; [intros Hby; by apply Hpos, bump_positive|].
    constructor; eauto.
Qed.

(** X17. The statistics add up: when [get_example_stats] succeeds on a
    configured database, [totalExamples] is the number of rows the query
    returned, the counts of [byObjectType] sum to that same number, every
    listed type has a count of at least one, and every row had a hashable
    [object_type]; without Supabase the answer is zero examples, no types and
    no heat map. *)
Theorem stats_counts_add_up (heatmap_of : list json -> result (list json))
    (now : string) (query : result (list json)) (stats : ExampleStats) :
  get_example_stats heatmap_of now (Some query) = Ok stats ->
  get_example_stats heatmap_of now None
    = Ok {| totalExamples := 0; byObjectType := [];
            coverageHeatmap := None; lastUpdated := now |} /\
  exists data,
    query = Ok data /\
    totalExamples stats = length data /\
    total_count (byObjectType stats) = Z.of_nat (totalExamples stats) /\
    Forall (fun kn => (1 <= kn.2)%Z) (byObjectType stats) /\
    Forall (fun row => exists obj_type,
              py_getitem row "object_type" = Ok obj_type /\
              py_hashable obj_type = true) data.
Proof.
  intros H. split; [reflexivity|].
  unfold get_example_stats, try_except in H.
  destruct query as [data|e]; simpl in H; [|discriminate].
  destruct (foldM count_row [] data) as [by_type|e] eqn:Hcount; simpl in H;
    [|discriminate].
  destruct (heatmap_of data) as [heatmap|e]; simpl in H; [|discriminate].
  injection H as <-. simpl.
  destruct (count_rows_inv _ _ _ Hcount) as (Htotal & Hpos & Hrows).
  exists data. split; [done|]. split; [done|].
  split; [by rewrite Htotal|]. split; [by apply Hpos | done].
Qed.

Definition typed_row (type : json) : json :=
  JDict (<["object_type" := type]> (<["object_position" := JList []]> ∅)).

Lemma stats_counts_add_up_witness :
  exists stats,
    get_example_stats (fun _ => Ok []) "2025-01-01T00:00:00"
      (Some (Ok [typed_row (JStr "cube"); typed_row (JStr "ball");
                 typed_row (JStr "cube")])) = Ok stats /\
    totalExamples stats = 3%nat /\
    total_count (byObjectType stats) = 3%Z.
Proof.
  destruct (is_ok_true (get_example_stats (fun _ => Ok []) "2025-01-01T00:00:00"
      (Some (Ok [typed_row (JStr "cube"); typed_row (JStr "ball");
                 typed_row (JStr "cube")])))) as [stats Hstats];
    [vm_compute; reflexivity|].
  exists stats. split; [exact Hstats|].
  destruct (stats_counts_add_up _ _ _ _ Hstats)
    as (_ & data & [= <-] & Htotal & Hsum & _).
  rewrite Hsum, Htotal. split; reflexivity.
Defined.
